(** * VideoReader: the OpenCV capture adapter of [inference.opencv.reader]

    A shallow embedding of [src/inference/opencv/reader/video_reader.py].

    The adapter is a Python object mutated in place by its methods, which call
    into two external collaborators: the capture backend ([cv2.VideoCapture])
    and [numpy].  The embedding is

    - the object as a record [VideoReader] with one field per attribute;
    - a method as a computation in a state-and-exception monad [M]: it takes
      the object, returns either a value or the exception raised, and the
      object as the method left it (what a method wrote before it raised
      stays written, as in Python);
    - the backend as an interface [Backend] over an abstract handle state, so
      that every theorem holds for every backend, with a scripted instance
      for concrete runs;
    - the batch as the list of its slots, and [np.zeros] with the limits of
      [npy_intp] and, as an interface [Numpy], the memory the machine
      provides;
    - the list of backend calls made so far, kept next to the object, so that
      "before any backend call" is a statement about that list. *)

From Stdlib Require Import ZArith List String Ascii Bool Lia QArith.
From Stdlib Require Import DecimalString.
Import ListNotations.

Local Open Scope string_scope.
Local Open Scope Z_scope.

(** ** Python strings

    A [str] is modelled as a [string] whose characters are the code points
    below 256 (Latin-1); [lower] and [isdigit] are the Python methods
    restricted to that range. *)

Module PyStr.

(** [s.split(sep)] for a one-character separator: never empty,
    [''.split('.') = ['']]. *)
Fixpoint split (sep : ascii) (s : string) : list string :=
  match s with
  | EmptyString => [EmptyString]
  | String c r =>
      if Ascii.eqb c sep then EmptyString :: split sep r
      else match split sep r with
           | [] => [String c EmptyString]
           | p :: ps => String c p :: ps
           end
  end.

(** [l[-1]] on a list of strings ([split] never returns an empty list). *)
Definition last_item (l : list string) : string := List.last l EmptyString.

(** [c.lower()] for one code point below 256: A-Z, and the Latin-1 capitals
    U+00C0..U+00DE except the multiplication sign U+00D7, move up by 32. *)
Definition lower_char (c : ascii) : ascii :=
  let n := N_of_ascii c in
  if ((65 <=? n) && (n <=? 90))%N then ascii_of_N (n + 32)
  else if ((192 <=? n) && (n <=? 222) && negb (n =? 215))%N
       then ascii_of_N (n + 32)
  else c.

Fixpoint lower (s : string) : string :=
  match s with
  | EmptyString => EmptyString
  | String c r => String (lower_char c) (lower r)
  end.

(** The characters [str.isdigit] accepts below 256: 0-9 and the superscripts
    U+00B2, U+00B3, U+00B9. *)
Definition is_ascii_digit (c : ascii) : bool :=
  let n := N_of_ascii c in ((48 <=? n) && (n <=? 57))%N.

Definition isdigit_char (c : ascii) : bool :=
  let n := N_of_ascii c in
  is_ascii_digit c || (n =? 178)%N || (n =? 179)%N || (n =? 185)%N.

Fixpoint all_chars (p : ascii -> bool) (s : string) : bool :=
  match s with
  | EmptyString => true
  | String c r => p c && all_chars p r
  end.

(** The characters other than [sep]. *)
Definition is_not (sep : ascii) : ascii -> bool :=
  fun c => negb (Ascii.eqb c sep).

(** [s.isdigit()]: at least one character and all of them digits. *)
Definition isdigit (s : string) : bool :=
  match s with
  | EmptyString => false
  | _ => all_chars isdigit_char s
  end.

Fixpoint digits_value (acc : Z) (s : string) : Z :=
  match s with
  | EmptyString => acc
  | String c r => digits_value (10 * acc + (Z.of_N (N_of_ascii c) - 48)) r
  end.

(** [int(s)] on a string that passed [isdigit]: the decimal value when the
    digits are 0-9, [None] (ValueError) for the superscript digits. *)
Definition int_of_str (s : string) : option Z :=
  match s with
  | EmptyString => None
  | _ => if all_chars is_ascii_digit s then Some (digits_value 0 s) else None
  end.

(** [posixpath.basename(p)]: [p[p.rfind('/') + 1:]], the text after the last
    slash. *)
Definition basename (p : string) : string := last_item (split "/" p).

(** [str(n)] for an [int]. *)
Definition str_of_int (n : Z) : string := NilZero.string_of_int (Z.to_int n).

End PyStr.

(** ** Values and exceptions *)

(** A Python [float] as the backend returns it from [get]: a finite value,
    an infinity or a NaN. *)
Inductive pyfloat : Type :=
| Finite (q : Q)
| Infinite
| NaN.

(** The exceptions the adapter can raise or let through.  The two
    [raise Exception(...)] of the source are told apart by their message. *)
Inductive PyErr : Type :=
| InvalidFileExtension (path : string)
| FailedToReadFrom (name : option string)
| TypeError
| ValueError
| OverflowError
| MemoryError
| AttributeError
| UnboundLocalError
| IndexError
| StopIteration
| CvError
| BackendError (code : Z).

Inductive Outcome (A : Type) : Type :=
| Raise (e : PyErr)
| Return (a : A).
Arguments Raise {A} e.
Arguments Return {A} a.

(** [int(x)] for a float: truncation toward zero; OverflowError on an
    infinity and ValueError on a NaN. *)
Definition int_of_float (x : pyfloat) : Outcome Z :=
  match x with
  | Finite q => Return (Z.quot (Qnum q) (Zpos (Qden q)))
  | Infinite => Raise OverflowError
  | NaN => Raise ValueError
  end.

(** The [path] argument: [str | int]. *)
Inductive Descriptor : Type :=
| PStr (s : string)
| PInt (n : Z).

(** [str(path)]. *)
Definition py_str (path : Descriptor) : string :=
  match path with
  | PStr s => s
  | PInt n => PyStr.str_of_int n
  end.

(** [os.path.basename(path)]: TypeError on an [int]. *)
Definition os_path_basename (path : Descriptor) : Outcome string :=
  match path with
  | PStr s => Return (PyStr.basename s)
  | PInt _ => Raise TypeError
  end.

Definition WEBCAM : Z := 0.

Definition _EXTENSIONS : list string :=
  ["avi"; "mkv"; "mp4"; "mov"; "wmv"; "webm"; "flv"; "mpg"].

(** [x in self._EXTENSIONS]. *)
Definition in_EXTENSIONS (x : string) : bool :=
  existsb (String.eqb x) _EXTENSIONS.

(** The expression tested on line 36, for a string:
    [os.path.basename(path).split('.')[-1].lower()]. *)
Definition extension_of (p : string) : string :=
  PyStr.lower (PyStr.last_item (PyStr.split "." (PyStr.basename p))).

(** The extension of a path in the usual sense, to compare with what line 36
    computes: the text after the last dot of the final component of the
    path, and none when that component has no dot. *)
Fixpoint after_last (sep : ascii) (s : string) : option string :=
  match s with
  | EmptyString => None
  | String c r =>
      match after_last sep r with
      | Some t => Some t
      | None => if Ascii.eqb c sep then Some r else None
      end
  end.

Definition final_component (p : string) : string :=
  match after_last "/" p with
  | Some t => t
  | None => p
  end.

Definition path_extension (p : string) : option string :=
  after_last "." (final_component p).

(** "A path with a supported extension", compared case-insensitively: the
    path has an extension and, in lower case, it is in the set. *)
Definition has_supported_extension (p : string) : bool :=
  match path_extension p with
  | Some e => in_EXTENSIONS (PyStr.lower e)
  | None => false
  end.

(** ** Frames and batches

    A frame is the 3-channel image the backend delivers: its height, its
    width and its samples.  A batch is the array [np.zeros] allocated, of
    shape [len, rows, cols, 3]: one slot per frame, each slot either still
    zero or holding the frame assigned to it (broadcast to the slot's shape
    when one of the frame's dimensions is 1). *)

Record Frame : Type := mkFrame {
  f_rows : Z;
  f_cols : Z;
  f_pixels : list Z
}.

Inductive Slot : Type :=
| Zeros
| Wrote (f : Frame).

Record Batch : Type := mkBatch {
  b_rows : Z;
  b_cols : Z;
  b_slots : list Slot
}.

(** [batch.shape]. *)
Definition np_shape (b : Batch) : list Z :=
  [Z.of_nat (List.length (b_slots b)); b_rows b; b_cols b; 3].

(** [len(batch)]. *)
Definition np_len (b : Batch) : Z := Z.of_nat (List.length (b_slots b)).

(** The number of slots of a batch that hold a frame. *)
Definition frames_in (b : Batch) : Z :=
  Z.of_nat
    (List.length
       (filter (fun s => match s with Wrote _ => true | Zeros => false end)
          (b_slots b))).

(** The largest [npy_intp] (64-bit build): numpy's limit on a dimension and
    on the byte count of an array. *)
Definition NPY_MAX_INTP : Z := 2 ^ 63 - 1.

(** Whether an [int] converts to [npy_intp]. *)
Definition fits_intp (d : Z) : bool :=
  (- 2 ^ 63 <=? d) && (d <=? NPY_MAX_INTP).

(** The machine numpy runs on: whether it provides the memory for an array
    of [uint8] of that shape (what numpy asks for an array without samples
    depends on its version). *)
Class Numpy : Type := {
  np_can_allocate : list Z -> bool
}.

(** The byte count numpy checks against [NPY_MAX_INTP]: the product of the
    dimensions that are not 0, one byte per [uint8] sample. *)
Definition np_nbytes (dims : list Z) : Z :=
  fold_left (fun acc d => if d =? 0 then acc else acc * d) dims 1.

(** [np.zeros((n, h, w, 3), dtype="uint8")].  The dimensions are converted
    in order: TypeError at the first None, ValueError at the first [int]
    outside [npy_intp].  Then ValueError when a dimension is negative or the
    byte count exceeds [NPY_MAX_INTP], and MemoryError when the machine does
    not provide the memory. *)
Definition np_zeros `{Numpy} (n h w : option Z) : Outcome Batch :=
  match n with
  | None => Raise TypeError
  | Some n =>
      if negb (fits_intp n) then Raise ValueError
      else
        match h with
        | None => Raise TypeError
        | Some h =>
            if negb (fits_intp h) then Raise ValueError
            else
              match w with
              | None => Raise TypeError
              | Some w =>
                  if negb (fits_intp w) then Raise ValueError
                  else if (n <? 0) || (h <? 0) || (w <? 0)
                       then Raise ValueError
                  else if NPY_MAX_INTP <? np_nbytes [n; h; w; 3]
                       then Raise ValueError
                  else if np_can_allocate [n; h; w; 3]
                       then Return (mkBatch h w (repeat Zeros (Z.to_nat n)))
                  else Raise MemoryError
              end
        end
  end.

(** Whether [np.zeros((n, h, w, 3), dtype="uint8")] returns the array, for
    [int] dimensions. *)
Definition np_zeros_ok `{Numpy} (n h w : Z) : bool :=
  (0 <=? n) && (0 <=? h) && (0 <=? w) &&
  (n <=? NPY_MAX_INTP) && (h <=? NPY_MAX_INTP) && (w <=? NPY_MAX_INTP) &&
  (np_nbytes [n; h; w; 3] <=? NPY_MAX_INTP) &&
  np_can_allocate [n; h; w; 3].

(** Whether numpy can broadcast a frame into a slot of [h] by [w]. *)
Definition fits (h w : Z) (f : Frame) : bool :=
  ((f_rows f =? h) || (f_rows f =? 1)) && ((f_cols f =? w) || (f_cols f =? 1)).

Fixpoint replace_nth {A : Type} (n : nat) (x : A) (l : list A) : list A :=
  match l, n with
  | [], _ => []
  | _ :: r, O => x :: r
  | y :: r, S m => y :: replace_nth m x r
  end.

(** [batch[i] = frame]: IndexError out of range (a negative index counts from
    the end), ValueError when the frame cannot be broadcast. *)
Definition np_setitem (b : Batch) (i : Z) (f : Frame) : Outcome Batch :=
  let len := np_len b in
  let j := if i <? 0 then i + len else i in
  if (j <? 0) || (len <=? j) then Raise IndexError
  else if fits (b_rows b) (b_cols b) f
       then Return (mkBatch (b_rows b) (b_cols b)
                      (replace_nth (Z.to_nat j) (Wrote f) (b_slots b)))
       else Raise ValueError.

(** [batch[:j]]: a negative [j] counts from the end. *)
Definition np_slice_to (b : Batch) (j : Z) : Batch :=
  let len := np_len b in
  let k := if j <? 0 then Z.max 0 (j + len) else j in
  mkBatch (b_rows b) (b_cols b) (firstn (Z.to_nat k) (b_slots b)).

(** [range(n)]. *)
Definition py_range (n : Z) : list Z :=
  map Z.of_nat (seq 0 (Z.to_nat n)).

(** What [read] returns when it returns something: a frame or a batch. *)
Inductive Value : Type :=
| VFrame (f : Frame)
| VBatch (b : Batch).

(** ** The capture backend *)

(** The argument of [cv2.VideoCapture]: a device index or a file name. *)
Inductive Source : Type :=
| Index (n : Z)
| Filename (s : string).

Inductive CapProp : Type :=
| CAP_PROP_FRAME_WIDTH
| CAP_PROP_FRAME_HEIGHT
| CAP_PROP_FPS.

(** The methods of a capture handle the adapter calls, over the handle's
    state [H].  [cap_read] gives the pair [(flag, frame)] of
    [VideoCapture.read]; [cap_release] may fail. *)
Class Backend (H : Type) : Type := {
  VideoCapture : Source -> H;
  isOpened : H -> bool;
  cap_get : CapProp -> H -> pyfloat;
  cap_set : CapProp -> Z -> H -> H;
  cap_read : H -> (bool * option Frame) * H;
  cap_release : H -> option PyErr * H
}.

(** A record of one call into the backend. *)
Inductive Call : Type :=
| COpen (s : Source)
| CIsOpened
| CGet (p : CapProp)
| CSet (p : CapProp) (v : Z)
| CRead
| CRelease.

(** ** The adapter object *)

(** [self._info]. *)
Record Info : Type := mkInfo {
  info_name : option string;
  info_width : option Z;
  info_height : option Z;
  info_fps : pyfloat
}.

(** The attributes of a [VideoReader].  [_video_title] is the one attribute
    [_init_props] does not create: [None] stands for "not set yet". *)
Record VideoReader (H : Type) : Type := mkVideoReader {
  _name : option string;
  _width : option Z;
  _height : option Z;
  _is_open : bool;
  _info : option Info;
  _video_stream : option H;
  _fps : pyfloat;
  _frame_count : Z;
  _seconds : Z;
  _minutes : Z;
  _batch_size : option Z;
  _dynamic_batch : bool;
  _video_title : option string
}.
Arguments mkVideoReader {H}.
Arguments _name {H}.
Arguments _width {H}.
Arguments _height {H}.
Arguments _is_open {H}.
Arguments _info {H}.
Arguments _video_stream {H}.
Arguments _fps {H}.
Arguments _frame_count {H}.
Arguments _seconds {H}.
Arguments _minutes {H}.
Arguments _batch_size {H}.
Arguments _dynamic_batch {H}.
Arguments _video_title {H}.

(** The object together with the backend calls made so far, oldest first. *)
Record State (H : Type) : Type := mkState {
  self : VideoReader H;
  calls : list Call
}.
Arguments mkState {H}.
Arguments self {H}.
Arguments calls {H}.

(** A method: from the state to what it returned or raised, and the state it
    left. *)
Definition M (H A : Type) : Type := State H -> Outcome A * State H.

Definition ret {H A : Type} (a : A) : M H A := fun st => (Return a, st).

Definition raise {H A : Type} (e : PyErr) : M H A := fun st => (Raise e, st).

Definition bind {H A B : Type} (m : M H A) (k : A -> M H B) : M H B :=
  fun st =>
    match m st with
    | (Return a, st') => k a st'
    | (Raise e, st') => (Raise e, st')
    end.

(** A pure computation that may raise. *)
Definition lift {H A : Type} (o : Outcome A) : M H A := fun st => (o, st).

(** Read an attribute. *)
Definition attr {H A : Type} (f : VideoReader H -> A) : M H A :=
  fun st => (Return (f (self st)), st).

(** Assign attributes. *)
Definition assign {H : Type} (f : VideoReader H -> VideoReader H) : M H unit :=
  fun st => (Return tt, mkState (f (self st)) (calls st)).

Definition record_call {H : Type} (c : Call) : M H unit :=
  fun st => (Return tt, mkState (self st) (calls st ++ [c])).

Declare Scope py_scope.
Delimit Scope py_scope with py.
Notation "x <- m ;; k" := (bind m (fun x => k))
  (at level 61, m at next level, right associativity) : py_scope.
Notation "m ;; k" := (bind m (fun _ => k))
  (at level 61, right associativity) : py_scope.

(** Attribute assignments, one per attribute the methods write. *)
Definition set_name {H : Type} (v : option string) (o : VideoReader H) :=
  mkVideoReader v (_width o) (_height o) (_is_open o) (_info o)
    (_video_stream o) (_fps o) (_frame_count o) (_seconds o) (_minutes o)
    (_batch_size o) (_dynamic_batch o) (_video_title o).

Definition set_width {H : Type} (v : option Z) (o : VideoReader H) :=
  mkVideoReader (_name o) v (_height o) (_is_open o) (_info o)
    (_video_stream o) (_fps o) (_frame_count o) (_seconds o) (_minutes o)
    (_batch_size o) (_dynamic_batch o) (_video_title o).

Definition set_height {H : Type} (v : option Z) (o : VideoReader H) :=
  mkVideoReader (_name o) (_width o) v (_is_open o) (_info o)
    (_video_stream o) (_fps o) (_frame_count o) (_seconds o) (_minutes o)
    (_batch_size o) (_dynamic_batch o) (_video_title o).

Definition set_is_open {H : Type} (v : bool) (o : VideoReader H) :=
  mkVideoReader (_name o) (_width o) (_height o) v (_info o)
    (_video_stream o) (_fps o) (_frame_count o) (_seconds o) (_minutes o)
    (_batch_size o) (_dynamic_batch o) (_video_title o).

Definition set_info {H : Type} (v : option Info) (o : VideoReader H) :=
  mkVideoReader (_name o) (_width o) (_height o) (_is_open o) v
    (_video_stream o) (_fps o) (_frame_count o) (_seconds o) (_minutes o)
    (_batch_size o) (_dynamic_batch o) (_video_title o).

Definition set_video_stream {H : Type} (v : option H) (o : VideoReader H) :=
  mkVideoReader (_name o) (_width o) (_height o) (_is_open o) (_info o)
    v (_fps o) (_frame_count o) (_seconds o) (_minutes o)
    (_batch_size o) (_dynamic_batch o) (_video_title o).

Definition set_fps {H : Type} (v : pyfloat) (o : VideoReader H) :=
  mkVideoReader (_name o) (_width o) (_height o) (_is_open o) (_info o)
    (_video_stream o) v (_frame_count o) (_seconds o) (_minutes o)
    (_batch_size o) (_dynamic_batch o) (_video_title o).

Definition set_frame_count {H : Type} (v : Z) (o : VideoReader H) :=
  mkVideoReader (_name o) (_width o) (_height o) (_is_open o) (_info o)
    (_video_stream o) (_fps o) v (_seconds o) (_minutes o)
    (_batch_size o) (_dynamic_batch o) (_video_title o).

Definition set_batch_size {H : Type} (v : option Z) (o : VideoReader H) :=
  mkVideoReader (_name o) (_width o) (_height o) (_is_open o) (_info o)
    (_video_stream o) (_fps o) (_frame_count o) (_seconds o) (_minutes o)
    v (_dynamic_batch o) (_video_title o).

Definition set_dynamic_batch {H : Type} (v : bool) (o : VideoReader H) :=
  mkVideoReader (_name o) (_width o) (_height o) (_is_open o) (_info o)
    (_video_stream o) (_fps o) (_frame_count o) (_seconds o) (_minutes o)
    (_batch_size o) v (_video_title o).

Definition set_video_title {H : Type} (v : option string) (o : VideoReader H) :=
  mkVideoReader (_name o) (_width o) (_height o) (_is_open o) (_info o)
    (_video_stream o) (_fps o) (_frame_count o) (_seconds o) (_minutes o)
    (_batch_size o) (_dynamic_batch o) v.

(** The kinds of read a caller can make. *)
Inductive ReadCall : Type :=
| CallReadFrame
| CallReadBatch
| CallRead
| CallNext.

(** The operations of the adapter.  [OpShow] carries what the display did:
    whether [cv2.imshow] raised, and the key [cv2.waitKey] returned. *)
Inductive Op : Type :=
| OpIsOpen
| OpReading (r : ReadCall)
| OpRelease
| OpShow (imshow_raises : bool) (key : Z)
| OpDel
| OpIter
| OpEnter
| OpExit.

(** ** The methods *)

Section Methods.

Context {H : Type} `{Backend H} `{Numpy}.
Local Open Scope py_scope.

(** The object [__init__] receives: none of its attributes exists yet.  A
    record has a value in every field, so the fields hold placeholders,
    different from the defaults of [_init_props] wherever the type allows
    it; [__init__] overwrites them all before anything reads them, except
    [_video_title], whose [None] stands for "not set". *)
Definition blank : State H :=
  mkState (mkVideoReader None None None false None None NaN (-1) (-1) (-1)
             None true None) [].

(** Calls on [self._video_stream]; AttributeError when it is None. *)
Definition with_stream {A : Type} (k : H -> M H A) : M H A :=
  s <- attr _video_stream ;;
  match s with
  | Some h => k h
  | None => raise AttributeError
  end.

Definition stream_isOpened : M H bool :=
  with_stream (fun h => record_call CIsOpened ;; ret (isOpened h)).

Definition stream_get (p : CapProp) : M H pyfloat :=
  with_stream (fun h => record_call (CGet p) ;; ret (cap_get p h)).

Definition stream_set (p : CapProp) (v : Z) : M H unit :=
  with_stream (fun h =>
    record_call (CSet p v) ;;
    assign (set_video_stream (Some (cap_set p v h)))).

Definition stream_read : M H (bool * option Frame) :=
  with_stream (fun h =>
    record_call CRead ;;
    assign (set_video_stream (Some (snd (cap_read h)))) ;;
    ret (fst (cap_read h))).

Definition stream_release : M H unit :=
  with_stream (fun h =>
    record_call CRelease ;;
    assign (set_video_stream (Some (snd (cap_release h)))) ;;
    match fst (cap_release h) with
    | Some e => raise e
    | None => ret tt
    end).

(** [cv2.VideoCapture(arg)], stored in [self._video_stream]. *)
Definition open_stream (src : Source) : M H unit :=
  record_call (COpen src) ;;
  assign (set_video_stream (Some (VideoCapture src))).

Definition _init_props : M H unit :=
  assign (fun o =>
    mkVideoReader None None None true None None (Finite (10 # 1)) 0 0 0
      None false (_video_title o)).

(** A new object as [_init_props] leaves it. *)
Definition initial_props : State H :=
  mkState (mkVideoReader None None None true None None (Finite (10 # 1))
             0 0 0 None false None) [].

(** [method] called [n] times in a row, up to the first exception. *)
Fixpoint times (n : nat) (method : M H unit) : M H unit :=
  match n with
  | O => ret tt
  | S k => method ;; times k method
  end.

Definition is_open : M H bool :=
  opened <- stream_isOpened ;;
  if opened then attr _is_open else ret false.

Definition _post_init : M H unit :=
  ok <- is_open ;;
  if negb ok then
    n <- attr _name ;; raise (FailedToReadFrom n)
  else
    w <- attr _width ;;
    match w with
    | Some w => stream_set CAP_PROP_FRAME_WIDTH w
    | None =>
        x <- stream_get CAP_PROP_FRAME_WIDTH ;;
        v <- lift (int_of_float x) ;;
        assign (set_width (Some v))
    end ;;
    h <- attr _height ;;
    match h with
    | Some h => stream_set CAP_PROP_FRAME_HEIGHT h
    | None =>
        x <- stream_get CAP_PROP_FRAME_HEIGHT ;;
        v <- lift (int_of_float x) ;;
        assign (set_height (Some v))
    end ;;
    fps <- stream_get CAP_PROP_FPS ;;
    assign (set_fps fps) ;;
    opened <- stream_isOpened ;;
    assign (set_is_open opened) ;;
    assign (fun o =>
      set_info (Some (mkInfo (_name o) (_width o) (_height o) (_fps o))) o).

(** The argument the source passes to [cv2.VideoCapture]:
    [int(self._name) if self._name.isdigit() else self._name]. *)
Definition capture_arg (name : string) : Outcome Source :=
  if PyStr.isdigit name then
    match PyStr.int_of_str name with
    | Some n => Return (Index n)
    | None => Raise ValueError
    end
  else Return (Filename name).

Definition __init__ (path : Descriptor) (batch_size : option Z)
    (dynamic_batch : bool) (width height : option Z) : M H unit :=
  _init_props ;;
  base <- lift (os_path_basename path) ;;
  if negb (in_EXTENSIONS
             (PyStr.lower (PyStr.last_item (PyStr.split "." base)))) then
    raise (InvalidFileExtension (py_str path))
  else
    assign (set_name (Some (py_str path))) ;;
    assign (set_batch_size batch_size) ;;
    assign (set_dynamic_batch dynamic_batch) ;;
    assign (set_width width) ;;
    assign (set_height height) ;;
    src <- lift (capture_arg (py_str path)) ;;
    open_stream src ;;
    assign (set_video_title
              (Some (if negb (PyStr.isdigit (py_str path))
                     then py_str path else "Webcam"))) ;;
    _post_init.

(** [VideoReader(path, batch_size, dynamic_batch, width, height)]. *)
Definition construct (path : Descriptor) (batch_size : option Z)
    (dynamic_batch : bool) (width height : option Z)
  : Outcome unit * State H :=
  __init__ path batch_size dynamic_batch width height blank.

(** The properties. *)
Definition name : M H (option string) := attr _name.
Definition width : M H (option Z) := attr _width.
Definition height : M H (option Z) := attr _height.
Definition fps : M H pyfloat := attr _fps.
Definition info : M H (option Info) := attr _info.
Definition frame_count : M H Z := attr _frame_count.

Definition video_title : M H string :=
  t <- attr _video_title ;;
  match t with
  | Some t => ret t
  | None => raise AttributeError
  end.

Definition read_frame : M H (option Frame) :=
  r <- stream_read ;;
  assign (fun o =>
    set_frame_count
      (_frame_count o + match snd r with None => 0 | Some _ => 1 end) o) ;;
  assign (set_is_open (fst r)) ;;
  ret (snd r).

(** The [for i in range(...)] loop of [read_batch], over the indices still
    to come.  [i] is the loop variable as the previous iteration left it
    ([None]: never bound); the result is its value when the loop ends. *)
Fixpoint fill_batch (todo : list Z) (i : option Z) (batch : Batch)
  : M H (option Z * Batch) :=
  match todo with
  | [] => ret (i, batch)
  | i :: rest =>
      frame <- read_frame ;;
      match frame with
      | None => ret (Some (i - 1), batch)
      | Some f =>
          batch' <- lift (np_setitem batch i f) ;;
          fill_batch rest (Some i) batch'
      end
  end.

Definition read_batch : M H (option Batch) :=
  ok <- is_open ;;
  if negb ok then ret None
  else
    n <- attr _batch_size ;;
    h <- height ;;
    w <- width ;;
    batch <- lift (np_zeros n h w) ;;
    r <- fill_batch (match n with Some n => py_range n | None => [] end)
           None batch ;;
    d <- attr _dynamic_batch ;;
    if d then
      match fst r with
      | Some i => ret (Some (np_slice_to (snd r) (i + 1)))
      | None => raise UnboundLocalError
      end
    else ret (Some (snd r)).

Definition read : M H (option Value) :=
  n <- attr _batch_size ;;
  match n with
  | None => f <- read_frame ;; ret (option_map VFrame f)
  | Some _ => b <- read_batch ;; ret (option_map VBatch b)
  end.

Definition release : M H unit :=
  s <- attr _video_stream ;;
  match s with
  | Some _ => stream_release
  | None => ret tt
  end.

(** [show]: the display is outside the adapter, so what it did is given. *)
Definition show (imshow_raises : bool) (key : Z) : M H unit :=
  _ <- video_title ;;
  if imshow_raises then raise CvError
  else if Z.land key 255 =? 113 then release else ret tt.

Definition __del__ : M H unit :=
  release ;;
  assign (set_video_stream None).

Definition __next__ : M H Value :=
  frame <- read ;;
  match frame with
  | None => raise StopIteration
  | Some v => ret v
  end.

Definition __exit__ : M H unit := release.

(** One read of the given kind; [__next__] ending the iteration counts as
    absent. *)
Definition do_read (r : ReadCall) : M H (option Value) :=
  match r with
  | CallReadFrame => f <- read_frame ;; ret (option_map VFrame f)
  | CallReadBatch => b <- read_batch ;; ret (option_map VBatch b)
  | CallRead => read
  | CallNext =>
      fun st =>
        match __next__ st with
        | (Return v, st') => (Return (Some v), st')
        | (Raise StopIteration, st') => (Return None, st')
        | (Raise e, st') => (Raise e, st')
        end
  end.

(** Reads one after the other; stops at the first exception. *)
Fixpoint do_reads (rs : list ReadCall) : M H (list (option Value)) :=
  match rs with
  | [] => ret []
  | r :: rest =>
      v <- do_read r ;;
      vs <- do_reads rest ;;
      ret (v :: vs)
  end.

(** One operation, its result dropped. *)
Definition run_op (op : Op) : M H unit :=
  match op with
  | OpIsOpen => _ <- is_open ;; ret tt
  | OpReading r => _ <- do_read r ;; ret tt
  | OpRelease => release
  | OpShow e k => show e k
  | OpDel => __del__
  | OpIter => ret tt
  | OpEnter => ret tt
  | OpExit => __exit__
  end.

(** A caller making the operations one after the other, going on after an
    operation that raised: the state they leave. *)
Fixpoint run_ops (ops : list Op) (st : State H) : State H :=
  match ops with
  | [] => st
  | op :: rest => run_ops rest (snd (run_op op st))
  end.

(** The frames the handle delivers to at most [n] reads in a row, up to the
    first read without a frame. *)
Fixpoint next_frames (n : nat) (h : H) : list Frame :=
  match n with
  | O => []
  | S m =>
      match snd (fst (cap_read h)) with
      | Some f => f :: next_frames m (snd (cap_read h))
      | None => []
      end
  end.

(** The handle after [n] reads. *)
Fixpoint after_reads (n : nat) (h : H) : H :=
  match n with
  | O => h
  | S m => after_reads m (snd (cap_read h))
  end.

(** A method under which [frame_count] does not go down, whether it returns
    or raises. *)
Definition never_decreases {A : Type} (m : M H A) : Prop :=
  forall st, _frame_count (self st) <= _frame_count (self (snd (m st))).

(** The adapter is closed on handle [h]: [is_open()] is false. *)
Definition closed_on (st : State H) (h : H) : Prop :=
  _video_stream (self st) = Some h /\
  isOpened h && _is_open (self st) = false.


End Methods.

(** ** A scripted backend

    A handle whose behaviour is written down in advance: whether it opened,
    the properties it reports, whether it honours [set], the results of its
    next reads (when they run out, or once the handle is closed, a read gives
    [(False, None)]), and the exception its [release] raises, if any.  The
    world is the function giving the handle each source opens to. *)

Record Script : Type := mkScript {
  sc_opened : bool;
  sc_width : pyfloat;
  sc_height : pyfloat;
  sc_fps : pyfloat;
  sc_honours_set : bool;
  sc_reads : list (bool * option Frame);
  sc_release_error : option PyErr
}.

Definition script_get (p : CapProp) (h : Script) : pyfloat :=
  match p with
  | CAP_PROP_FRAME_WIDTH => sc_width h
  | CAP_PROP_FRAME_HEIGHT => sc_height h
  | CAP_PROP_FPS => sc_fps h
  end.

Definition script_set (p : CapProp) (v : Z) (h : Script) : Script :=
  if sc_honours_set h then
    match p with
    | CAP_PROP_FRAME_WIDTH =>
        mkScript (sc_opened h) (Finite (v # 1)) (sc_height h) (sc_fps h)
          (sc_honours_set h) (sc_reads h) (sc_release_error h)
    | CAP_PROP_FRAME_HEIGHT =>
        mkScript (sc_opened h) (sc_width h) (Finite (v # 1)) (sc_fps h)
          (sc_honours_set h) (sc_reads h) (sc_release_error h)
    | CAP_PROP_FPS =>
        mkScript (sc_opened h) (sc_width h) (sc_height h) (Finite (v # 1))
          (sc_honours_set h) (sc_reads h) (sc_release_error h)
    end
  else h.

Definition script_read (h : Script) : (bool * option Frame) * Script :=
  if sc_opened h then
    match sc_reads h with
    | [] => ((false, None), h)
    | r :: rest =>
        (r, mkScript (sc_opened h) (sc_width h) (sc_height h) (sc_fps h)
              (sc_honours_set h) rest (sc_release_error h))
    end
  else ((false, None), h).

Definition script_release (h : Script) : option PyErr * Script :=
  match sc_release_error h with
  | Some e => (Some e, h)
  | None =>
      (None, mkScript false (sc_width h) (sc_height h) (sc_fps h)
               (sc_honours_set h) (sc_reads h) None)
  end.

#[export] Instance Scripted (world : Source -> Script) : Backend Script := {
  VideoCapture := world;
  isOpened := sc_opened;
  cap_get := script_get;
  cap_set := script_set;
  cap_read := script_read;
  cap_release := script_release
}.

(** Sample frames of 2 rows by 2 columns, and a file of them. *)
Definition sample_frame (k : Z) : Frame := mkFrame 2 2 (repeat k 12).

Definition sample_file (reads : list (bool * option Frame)) : Script :=
  mkScript true (Finite (2 # 1)) (Finite (2 # 1)) (Finite (25 # 1)) false
    reads None.

(** A world where every source opens to the same handle. *)
Definition always (h : Script) : Source -> Script := fun _ => h.

(** Sample handles: a file of one frame; an empty file; a source whose first
    read fails and whose second delivers a frame; a source that did not
    open; a handle whose [release] raises. *)
Definition one_frame_file : Script :=
  sample_file [(true, Some (sample_frame 1))].

Definition empty_file : Script := sample_file [].


Definition missing_file : Script :=
  mkScript false (Finite (0 # 1)) (Finite (0 # 1)) (Finite (0 # 1)) false
    [] None.

Definition stuck_handle : Script :=
  mkScript true (Finite (2 # 1)) (Finite (2 # 1)) (Finite (25 # 1)) false
    [] (Some (BackendError 1)).

(** A machine that gives numpy arrays of up to 1 GiB. *)
Definition machine : Numpy :=
  {| np_can_allocate := fun dims => fold_left Z.mul dims 1 <=? 2 ^ 30 |}.

(** The reader [VideoReader("clip.mp4", batch_size, dynamic_batch)] in the
    world where every source opens to [file]. *)
Definition sample_reader (file : Script) (batch_size : option Z)
    (dynamic_batch : bool) : State Script :=
  snd (@construct Script (Scripted (always file)) (PStr "clip.mp4")
         batch_size dynamic_batch None None).

(** ** Observations on the object and on the handle *)

Section Observations.

Context {H : Type} `{Backend H} `{Numpy}.

(** The attributes construction fixes: what the properties [name], [width],
    [height], [fps], [info] and [video_title] return, and the batch
    configuration. *)
Definition config_of (o : VideoReader H) :=
  (_name o, _width o, _height o, _fps o, _info o, _batch_size o,
   _dynamic_batch o, _video_title o).

(** A method that leaves those attributes as they are, whether it returns
    or raises. *)
Definition keeps_config {A : Type} (m : M H A) : Prop :=
  forall st, config_of (self (snd (m st))) = config_of (self st).

(** The handle [_post_init] ends with: the handle opened, after the width
    and then the height requests that were given. *)
Definition handle_after_sizes (w h : option Z) (h0 : H) : H :=
  let h1 := match w with
            | Some w0 => cap_set CAP_PROP_FRAME_WIDTH w0 h0
            | None => h0
            end in
  match h with
  | Some x => cap_set CAP_PROP_FRAME_HEIGHT x h1
  | None => h1
  end.

(** The call [_post_init] makes for a size: [set] when it was given, [get]
    when it was not. *)
Definition size_call (p : CapProp) (v : option Z) : Call :=
  match v with
  | Some x => CSet p x
  | None => CGet p
  end.

(** The number of backend reads the loop of [read_batch] makes for [n]
    slots: one per frame, and one more for the absent read that stops it. *)
Fixpoint reads_used (n : nat) (h : H) : nat :=
  match n with
  | O => O
  | S m =>
      match snd (fst (cap_read h)) with
      | Some _ => S (reads_used m (snd (cap_read h)))
      | None => 1%nat
      end
  end.

(** The flag of the last of those reads ([flag] when there is none). *)
Fixpoint last_flag (n : nat) (h : H) (flag : bool) : bool :=
  match n with
  | O => flag
  | S m =>
      match snd (fst (cap_read h)) with
      | Some _ => last_flag m (snd (cap_read h)) (fst (fst (cap_read h)))
      | None => fst (fst (cap_read h))
      end
  end.

(** The handle is open and delivers exactly [k] more frames: [k] reads
    that give [(True, frame)] and leave it open, then one that gives
    [(False, None)]. *)
Fixpoint delivers (k : nat) (h : H) : Prop :=
  isOpened h = true /\
  match k with
  | O => fst (cap_read h) = (false, None)
  | S k' =>
      exists f, fst (cap_read h) = (true, Some f) /\
                delivers k' (snd (cap_read h))
  end.

(** The loop [for v in reader] run for at most [fuel] steps: the values
    [__next__] returned, and whether StopIteration ended the loop ([false]:
    the steps ran out first).  Any other exception ends it. *)
Fixpoint collect (fuel : nat) (st : State H)
  : Outcome (list Value * bool) * State H :=
  match fuel with
  | O => (Return ([], false), st)
  | S k =>
      match __next__ st with
      | (Return v, st1) =>
          match collect k st1 with
          | (Return (vs, done), st2) => (Return (v :: vs, done), st2)
          | (Raise e, st2) => (Raise e, st2)
          end
      | (Raise StopIteration, st1) => (Return ([], true), st1)
      | (Raise e, st1) => (Raise e, st1)
      end
  end.

End Observations.

(** The frames a batch holds, in slot order. *)
Definition frames_of (b : Batch) : list Frame :=
  flat_map (fun s => match s with Wrote f => [f] | Zeros => [] end)
    (b_slots b).

(** The frames a value returned by [read] holds. *)
Definition value_frames (v : Value) : list Frame :=
  match v with
  | VFrame f => [f]
  | VBatch b => frames_of b
  end.

(** The calls that read a frame or release the handle. *)
Definition reads_or_releases (c : Call) : bool :=
  match c with
  | CRead | CRelease => true
  | _ => false
  end.

(** * Properties *)

(** ** Strings: [split], [basename] and the extension test *)

Module PyStrFacts.
Import PyStr.

Lemma all_chars_impl (p q : ascii -> bool) (s : string) :
  (forall c, p c = true -> q c = true) ->
  all_chars p s = true -> all_chars q s = true.
Proof.
  intros Hpq. induction s as [|c r IH]; simpl; [reflexivity|].
  intros Hs. apply andb_true_iff in Hs. destruct Hs as [Hc Hr].
  apply andb_true_iff. split; [apply Hpq, Hc | apply IH, Hr].
Qed.

Lemma all_chars_app (p : ascii -> bool) (a b : string) :
  all_chars p (a ++ b)%string = all_chars p a && all_chars p b.
Proof.
  induction a as [|c r IH]; simpl; [reflexivity|].
  rewrite IH. apply andb_assoc.
Qed.

Lemma split_nonempty (sep : ascii) (s : string) : split sep s <> [].
Proof.
  destruct s as [|c r]; simpl; [discriminate|].
  destruct (Ascii.eqb c sep); [discriminate|].
  destruct (split sep r); discriminate.
Qed.

(** A string without the separator is one piece. *)
Lemma split_without_sep (sep : ascii) (s : string) :
  all_chars (is_not sep) s = true -> split sep s = [s].
Proof.
  induction s as [|c r IH]; simpl; [reflexivity|].
  intros Hs. apply andb_true_iff in Hs. destruct Hs as [Hc Hr].
  unfold is_not in Hc. apply negb_true_iff in Hc. rewrite Hc.
  rewrite (IH Hr). reflexivity.
Qed.

(** Splitting distributes over a separator in the middle. *)
Lemma split_app_sep (sep : ascii) (a e : string) :
  split sep (a ++ String sep e)%string = (split sep a ++ split sep e)%list.
Proof.
  induction a as [|c r IH]; simpl.
  - rewrite Ascii.eqb_refl. reflexivity.
  - destruct (Ascii.eqb c sep).
    + rewrite IH. reflexivity.
    + rewrite IH. pose proof (split_nonempty sep r) as Hne.
      destruct (split sep r) as [|p ps]; [congruence|]. reflexivity.
Qed.

(** Text without the separator appended to a string extends its last
    piece. *)
Lemma split_app_tail (sep : ascii) (a x : string) :
  all_chars (is_not sep) x = true ->
  split sep (a ++ x)%string =
  (removelast (split sep a) ++ [(last_item (split sep a) ++ x)%string])%list.
Proof.
  intros Hx. unfold last_item. induction a as [|c r IH]; simpl.
  - apply split_without_sep, Hx.
  - pose proof (split_nonempty sep r) as Hne.
    destruct (Ascii.eqb c sep).
    + rewrite IH. destruct (split sep r) as [|p ps]; [congruence|].
      reflexivity.
    + rewrite IH. destruct (split sep r) as [|p [|q qs]]; [congruence| |];
        reflexivity.
Qed.

Lemma last_item_snoc (l : list string) (x : string) :
  last_item (l ++ [x])%list = x.
Proof. unfold last_item. apply last_last. Qed.

Lemma basename_app_tail (q x : string) :
  all_chars (is_not "/") x = true ->
  basename (q ++ x)%string = (basename q ++ x)%string.
Proof.
  intros Hx. unfold basename. rewrite (split_app_tail _ _ _ Hx).
  apply last_item_snoc.
Qed.

(** [split] cuts at the last separator, when there is one. *)
Lemma split_after_last (sep : ascii) (s : string) :
  match after_last sep s with
  | Some t => exists pre, pre <> [] /\ split sep s = (pre ++ [t])%list
  | None => split sep s = [s]
  end.
Proof.
  induction s as [|c r IH]; cbn [after_last split]; [reflexivity|].
  destruct (after_last sep r) as [t|].
  - destruct IH as [pre [Ne E]]. rewrite E.
    destruct (Ascii.eqb c sep).
    + exists (EmptyString :: pre). split; [discriminate | reflexivity].
    + destruct pre as [|x pre']; [congruence|].
      exists (String c x :: pre'). split; [discriminate | reflexivity].
  - rewrite IH. destruct (Ascii.eqb c sep); [|reflexivity].
    exists [EmptyString]. split; [discriminate | reflexivity].
Qed.

(** [s.split(sep)[-1]] is the text after the last separator, and the whole
    string when it has none. *)
Lemma last_item_split (sep : ascii) (s : string) :
  last_item (split sep s) =
  match after_last sep s with
  | Some t => t
  | None => s
  end.
Proof.
  pose proof (split_after_last sep s) as K.
  destruct (after_last sep s) as [t|].
  - destruct K as [pre [_ ->]]. apply last_item_snoc.
  - rewrite K. reflexivity.
Qed.

Lemma basename_final_component (p : string) : basename p = final_component p.
Proof. apply last_item_split. Qed.

(** What line 36 tests, in terms of the extension of the path: the
    extension when the final component has one, the whole component when it
    has none. *)
Lemma extension_of_path (p : string) :
  extension_of p =
  lower (match path_extension p with
         | Some e => e
         | None => final_component p
         end).
Proof.
  unfold extension_of, path_extension.
  rewrite basename_final_component, last_item_split. reflexivity.
Qed.

(** The extension the source computes for [q.e] is [e] in lower case, for
    every prefix [q] and every [e] free of dots and slashes. *)
Lemma extension_of_suffix (q e : string) :
  all_chars (is_not ".") e = true ->
  all_chars (is_not "/") e = true ->
  extension_of (q ++ String "." e)%string = lower e.
Proof.
  intros Hdot Hslash. unfold extension_of.
  rewrite basename_app_tail by (simpl; rewrite Hslash; reflexivity).
  rewrite split_app_sep, (split_without_sep _ _ Hdot), last_item_snoc.
  reflexivity.
Qed.

Lemma lower_char_dot (c : ascii) :
  is_not "." (lower_char c) = true -> is_not "." c = true.
Proof.
  destruct c as [[] [] [] [] [] [] [] []]; vm_compute; congruence.
Qed.

Lemma lower_char_slash (c : ascii) :
  is_not "/" (lower_char c) = true -> is_not "/" c = true.
Proof.
  destruct c as [[] [] [] [] [] [] [] []]; vm_compute; congruence.
Qed.

Lemma all_chars_lower (p q : ascii -> bool) (s : string) :
  (forall c, p (lower_char c) = true -> q c = true) ->
  all_chars p (lower s) = true -> all_chars q s = true.
Proof.
  intros Hpq. induction s as [|c r IH]; simpl; [reflexivity|].
  intros Hs. apply andb_true_iff in Hs. destruct Hs as [Hc Hr].
  apply andb_true_iff. split; [apply Hpq, Hc | apply IH, Hr].
Qed.

Lemma in_EXTENSIONS_In (x : string) :
  in_EXTENSIONS x = true <-> In x _EXTENSIONS.
Proof.
  unfold in_EXTENSIONS. rewrite existsb_exists. split.
  - intros [y [Hy Heq]]. apply String.eqb_eq in Heq. subst. exact Hy.
  - intros Hx. exists x. split; [exact Hx | apply String.eqb_refl].
Qed.

(** A supported extension has neither a dot nor a slash. *)
Lemma in_EXTENSIONS_plain (x : string) :
  in_EXTENSIONS x = true ->
  all_chars (is_not ".") x = true /\ all_chars (is_not "/") x = true.
Proof.
  intros Hx. apply in_EXTENSIONS_In in Hx. simpl in Hx.
  repeat (destruct Hx as [<- | Hx]; [split; reflexivity|]). contradiction.
Qed.

(** A supported extension is not a digit string. *)
Lemma in_EXTENSIONS_not_digit (x : string) :
  in_EXTENSIONS x = true -> isdigit x = false.
Proof.
  intros Hx. apply in_EXTENSIONS_In in Hx. simpl in Hx.
  repeat (destruct Hx as [<- | Hx]; [reflexivity|]). contradiction.
Qed.

Lemma digit_char_plain (sep : ascii) (c : ascii) :
  isdigit_char sep = false -> isdigit_char c = true -> is_not sep c = true.
Proof.
  intros Hsep Hc. unfold is_not. apply negb_true_iff, Ascii.eqb_neq.
  intros ->. congruence.
Qed.

Lemma digit_char_lower (c : ascii) :
  isdigit_char c = true -> lower_char c = c.
Proof.
  destruct c as [[] [] [] [] [] [] [] []]; vm_compute; congruence.
Qed.

Lemma lower_digits (s : string) :
  all_chars isdigit_char s = true -> lower s = s.
Proof.
  induction s as [|c r IH]; simpl; [reflexivity|].
  intros Hs. apply andb_true_iff in Hs. destruct Hs as [Hc Hr].
  rewrite (digit_char_lower _ Hc), (IH Hr). reflexivity.
Qed.

Lemma isdigit_all (s : string) :
  isdigit s = true -> all_chars isdigit_char s = true.
Proof. destruct s; simpl; [discriminate | trivial]. Qed.

(** The extension the source computes for a digit string is the string
    itself. *)
Lemma extension_of_digits (d : string) :
  isdigit d = true -> extension_of d = d.
Proof.
  intros Hd. apply isdigit_all in Hd. unfold extension_of, basename.
  rewrite (split_without_sep "/" d)
    by (apply (all_chars_impl _ _ _ (fun c => digit_char_plain "/" c eq_refl) Hd)).
  unfold last_item at 2. simpl last.
  rewrite (split_without_sep "." d)
    by (apply (all_chars_impl _ _ _ (fun c => digit_char_plain "." c eq_refl) Hd)).
  unfold last_item. simpl last. apply lower_digits, Hd.
Qed.

(** The extension test rejects every digit string. *)
Lemma digit_name_rejected (d : string) :
  isdigit d = true -> in_EXTENSIONS (extension_of d) = false.
Proof.
  intros Hd. rewrite (extension_of_digits d Hd).
  destruct (in_EXTENSIONS d) eqn:E; [|reflexivity].
  apply in_EXTENSIONS_not_digit in E. congruence.
Qed.

(** A name that passed the extension test is not a digit string. *)
Lemma accepted_name_not_digit (p : string) :
  in_EXTENSIONS (extension_of p) = true -> isdigit p = false.
Proof.
  intros Hp. destruct (isdigit p) eqn:E; [|reflexivity].
  rewrite (digit_name_rejected p E) in Hp. discriminate.
Qed.

End PyStrFacts.

(** ** Construction *)

Section Construction.

Context {H : Type} {B : Backend H}.

Ltac unfold_init :=
  unfold construct, __init__, _post_init, _init_props, is_open, open_stream,
    stream_isOpened, stream_get, stream_set, with_stream, bind, ret, raise,
    lift, attr, assign, record_call, blank, initial_props in *.

Ltac keep_strings :=
  cbn -[in_EXTENSIONS PyStr.lower PyStr.split PyStr.basename PyStr.last_item
        PyStr.isdigit].

(** A string whose extension is not supported: the exception of line 37,
    raised right after [_init_props]. *)
Lemma construct_rejected (p : string) bs dyn w h :
  in_EXTENSIONS (extension_of p) = false ->
  construct (PStr p) bs dyn w h =
  (Raise (InvalidFileExtension p), initial_props).
Proof.
  intros E. unfold extension_of in E. unfold_init. keep_strings.
  rewrite E. reflexivity.
Qed.

(** A string whose extension is supported: the attributes are stored, the
    backend is opened by file name, and [_post_init] runs. *)
Lemma construct_accepted (p : string) bs dyn w h :
  in_EXTENSIONS (extension_of p) = true ->
  construct (PStr p) bs dyn w h =
  _post_init
    (mkState (mkVideoReader (Some p) w h true None
                (Some (VideoCapture (Filename p))) (Finite (10 # 1))
                0 0 0 bs dyn (Some p))
       [COpen (Filename p)]).
Proof.
  intros E. pose proof (PyStrFacts.accepted_name_not_digit p E) as D.
  unfold extension_of in E. unfold construct, __init__, capture_arg.
  unfold _init_props, open_stream, bind, ret, raise, lift, attr, assign,
    record_call, blank.
  keep_strings. rewrite E. cbn -[PyStr.isdigit]. rewrite D. reflexivity.
Qed.

(** An [int]: [os.path.basename] raises. *)
Lemma construct_int (n : Z) bs dyn w h :
  construct (PInt n) bs dyn w h = (Raise TypeError, initial_props).
Proof. reflexivity. Qed.

Lemma post_init_closed (o : VideoReader H) (cs : list Call) (h0 : H) :
  _video_stream o = Some h0 -> isOpened h0 = false ->
  _post_init (mkState o cs) =
  (Raise (FailedToReadFrom (_name o)), mkState o (cs ++ [CIsOpened])).
Proof.
  intros Hs Ho. unfold_init. cbn. rewrite Hs. cbn. rewrite Ho. reflexivity.
Qed.

(** [_post_init] only adds calls on the handle, and never raises the
    extension error. *)
Lemma post_init_shape (st : State H) :
  exists rest,
    calls (snd (_post_init st)) = (calls st ++ rest)%list /\
    Forall (fun c => forall s, c <> COpen s) rest /\
    (forall x, fst (_post_init st) <> Raise (InvalidFileExtension x)) /\
    _frame_count (self (snd (_post_init st))) = _frame_count (self st).
Proof.
  assert (Hcalls : forall rest : list Call,
    Forall (fun c => forall s, c <> COpen s) rest <->
    forallb (fun c => match c with COpen _ => false | _ => true end) rest
      = true).
  { intros rest. rewrite forallb_forall, Forall_forall.
    split; intros F c I; specialize (F c I);
      destruct c; try reflexivity; try discriminate.
    exfalso. exact (F s eq_refl). }
  destruct st as [[nm wd ht io inf vs fp fc sec mn bsz dy vt] cs].
  unfold_init. cbn.
  destruct vs as [h0|]; cbn.
  2:{ exists []. rewrite app_nil_r.
      split; [reflexivity|]. split; [constructor|].
      split; [intros x E; discriminate E | reflexivity]. }
  destruct (isOpened h0); cbn;
    [destruct io; cbn;
     [destruct wd, ht; cbn;
      repeat match goal with
             | |- context [int_of_float ?x] => destruct x; cbn
             end|]|];
    repeat rewrite <- app_assoc; cbn [app];
    (eexists; split; [reflexivity|]; split; [apply Hcalls; reflexivity|];
     split; [intros x E; discriminate E | reflexivity]).
Qed.

Lemma construct_returns (path : Descriptor) bs dyn w h st :
  construct path bs dyn w h = (Return tt, st) ->
  exists p, path = PStr p /\ in_EXTENSIONS (extension_of p) = true /\
            isOpened (VideoCapture (Filename p)) = true.
Proof.
  destruct path as [p|n]; [|rewrite construct_int; discriminate].
  intros C. exists p. split; [reflexivity|].
  destruct (in_EXTENSIONS (extension_of p)) eqn:E.
  - split; [reflexivity|].
    rewrite (construct_accepted p _ _ _ _ E) in C.
    destruct (isOpened (VideoCapture (Filename p))) eqn:O; [reflexivity|].
    erewrite post_init_closed in C; [discriminate | reflexivity | exact O].
  - rewrite (construct_rejected p _ _ _ _ E) in C. discriminate.
Qed.

(** Whatever the descriptor, a backend handle is only ever opened by file
    name: the device-index branch of line 51 is never taken. *)
Lemma open_is_always_by_name (path : Descriptor) bs dyn w h (src : Source) :
  In (COpen src) (calls (snd (construct path bs dyn w h))) ->
  exists p, path = PStr p /\ src = Filename p.
Proof.
  destruct path as [p|n]; [|rewrite construct_int; intros []].
  destruct (in_EXTENSIONS (extension_of p)) eqn:E.
  - rewrite (construct_accepted p _ _ _ _ E).
    destruct (post_init_shape
                (mkState (mkVideoReader (Some p) w h true None
                            (Some (VideoCapture (Filename p)))
                            (Finite (10 # 1)) 0 0 0 bs dyn (Some p))
                   [COpen (Filename p)])) as [rest [-> [F _]]].
    cbn [calls app]. intros [I|I].
    + exists p. split; [reflexivity | congruence].
    + rewrite Forall_forall in F. exfalso. exact (F _ I src eq_refl).
  - rewrite (construct_rejected p _ _ _ _ E). intros [].
Qed.

(** Construction never touches the frame counter after [_init_props]. *)
Lemma construct_frame_count (path : Descriptor) bs dyn w h :
  _frame_count (self (snd (construct path bs dyn w h))) = 0.
Proof.
  destruct path as [p|n]; [|reflexivity].
  destruct (in_EXTENSIONS (extension_of p)) eqn:E.
  - rewrite (construct_accepted p _ _ _ _ E).
    destruct (post_init_shape
                (mkState (mkVideoReader (Some p) w h true None
                            (Some (VideoCapture (Filename p)))
                            (Finite (10 # 1)) 0 0 0 bs dyn (Some p))
                   [COpen (Filename p)])) as [rest [_ [_ [_ ->]]]].
    reflexivity.
  - rewrite (construct_rejected p _ _ _ _ E). reflexivity.
Qed.

(** [__init__] starts with [_init_props], so the counter is 0 afterwards
    whatever the object held before. *)
Lemma init_frame_count (path : Descriptor) bs dyn w h (st0 : State H) :
  _frame_count (self (snd (__init__ path bs dyn w h st0))) = 0.
Proof.
  destruct path as [p|n]; [|reflexivity].
  destruct (in_EXTENSIONS (extension_of p)) eqn:E.
  - pose proof (PyStrFacts.accepted_name_not_digit p E) as D.
    unfold extension_of in E. unfold __init__, capture_arg.
    unfold _init_props, open_stream, bind, ret, raise, lift, attr, assign,
      record_call.
    keep_strings. rewrite E. cbn -[PyStr.isdigit]. rewrite D.
    match goal with
    | |- context [_post_init ?s] =>
        destruct (post_init_shape s) as [rest [_ [_ [_ ->]]]]
    end.
    reflexivity.
  - unfold extension_of in E.
    unfold __init__, _init_props, bind, ret, raise, lift, attr, assign.
    keep_strings. rewrite E. reflexivity.
Qed.

(** C1 (the code departs from the claim).  A numeric descriptor never
    reaches the backend: for a digit string the extension test of line 36
    fails, because the text after the last dot of a digit string is the
    string itself, and construction raises the invalid-extension exception
    with no backend call made; for an [int] [os.path.basename] raises
    TypeError.  No construction ever opens a handle by device index. *)
Theorem numeric_descriptor_rejected
    (d : string) (n : Z) bs dyn (w h : option Z) :
  PyStr.isdigit d = true ->
  construct (PStr d) bs dyn w h
    = (Raise (InvalidFileExtension d), initial_props) /\
  construct (PInt n) bs dyn w h = (Raise TypeError, initial_props) /\
  (forall path k,
     ~ In (COpen (Index k)) (calls (snd (construct path bs dyn w h)))).
Proof.
  intros D. split; [|split].
  - apply construct_rejected, PyStrFacts.digit_name_rejected, D.
  - apply construct_int.
  - intros path k I.
    destruct (open_is_always_by_name _ _ _ _ _ _ I) as [p [_ E]].
    discriminate E.
Qed.

(** C5 (amended).  For a string descriptor, what line 36 tests is the
    extension of the path (the text after the last dot of its final
    component) when that component has a dot, and the whole component when
    it has none, in lower case.  Construction raises the invalid-extension
    exception exactly when that text is not in the supported set, and then no
    backend call has been made and no handle is stored; otherwise the first
    backend call is the open by file name.  Hence every path with a supported
    extension passes the validation and the backend is opened, and a path
    that has an extension is rejected exactly when the extension is not
    supported; a path without extension is rejected exactly when its final
    component is not itself one of the supported names.  An [int] descriptor
    never raises the invalid-extension exception.  The test is
    case-insensitive and looks only at the last suffix: [q.e] is accepted for
    every prefix [q] as soon as [e] in lower case is supported, and rejected
    when [e], free of dots and slashes, is not. *)
Theorem extension_validation (p : string) bs dyn (w h : option Z) :
  let tested := match path_extension p with
                | Some e => e
                | None => final_component p
                end in
  extension_of p = PyStr.lower tested /\
  (in_EXTENSIONS (PyStr.lower tested) = false <->
   construct (PStr p) bs dyn w h
     = (Raise (InvalidFileExtension p), initial_props)) /\
  (in_EXTENSIONS (PyStr.lower tested) = false <->
   exists x,
     fst (construct (PStr p) bs dyn w h) = Raise (InvalidFileExtension x)) /\
  (in_EXTENSIONS (PyStr.lower tested) = true ->
   exists rest,
     calls (snd (construct (PStr p) bs dyn w h))
       = COpen (Filename p) :: rest) /\
  (has_supported_extension p = true ->
   (forall x,
      fst (construct (PStr p) bs dyn w h) <> Raise (InvalidFileExtension x)) /\
   exists rest,
     calls (snd (construct (PStr p) bs dyn w h))
       = COpen (Filename p) :: rest) /\
  (forall e, path_extension p = Some e ->
     (has_supported_extension p = false <->
      construct (PStr p) bs dyn w h
        = (Raise (InvalidFileExtension p), initial_props))) /\
  (path_extension p = None ->
     (in_EXTENSIONS (PyStr.lower (final_component p)) = false <->
      construct (PStr p) bs dyn w h
        = (Raise (InvalidFileExtension p), initial_props))) /\
  (forall n x,
     fst (construct (PInt n) bs dyn w h) <> Raise (InvalidFileExtension x)) /\
  (forall q e,
     in_EXTENSIONS (PyStr.lower e) = true ->
     in_EXTENSIONS (extension_of (q ++ String "." e)%string) = true) /\
  (forall q e,
     PyStr.all_chars (PyStr.is_not ".") e = true ->
     PyStr.all_chars (PyStr.is_not "/") e = true ->
     in_EXTENSIONS (PyStr.lower e) = false ->
     in_EXTENSIONS (extension_of (q ++ String "." e)%string) = false).
Proof.
  intros tested.
  assert (T : extension_of p = PyStr.lower tested)
    by apply PyStrFacts.extension_of_path.
  assert (A : in_EXTENSIONS (extension_of p) = true ->
              exists rest,
                calls (snd (construct (PStr p) bs dyn w h))
                  = COpen (Filename p) :: rest /\
                forall x, fst (construct (PStr p) bs dyn w h)
                          <> Raise (InvalidFileExtension x)).
  { intros E. rewrite (construct_accepted p _ _ _ _ E).
    destruct (post_init_shape
                (mkState (mkVideoReader (Some p) w h true None
                            (Some (VideoCapture (Filename p)))
                            (Finite (10 # 1)) 0 0 0 bs dyn (Some p))
                   [COpen (Filename p)])) as [rest [-> [_ [N _]]]].
    exists rest. split; [reflexivity | exact N]. }
  assert (R : in_EXTENSIONS (extension_of p) = false <->
              construct (PStr p) bs dyn w h
                = (Raise (InvalidFileExtension p), initial_props)).
  { split; [apply construct_rejected|].
    intros C. destruct (in_EXTENSIONS (extension_of p)) eqn:E; [|reflexivity].
    destruct (A eq_refl) as [rest [_ N]]. rewrite C in N.
    exfalso. exact (N p eq_refl). }
  rewrite T in A, R.
  split; [exact T|].
  split; [exact R|].
  split; [|split; [|split; [|split; [|split; [|split; [|split]]]]]].
  - split.
    + intros E. exists p. rewrite (proj1 R E). reflexivity.
    + intros [x C].
      destruct (in_EXTENSIONS (PyStr.lower tested)) eqn:E; [|reflexivity].
      destruct (A eq_refl) as [rest [_ N]]. exfalso. exact (N x C).
  - intros E. destruct (A E) as [rest [C _]]. exists rest. exact C.
  - unfold has_supported_extension. subst tested.
    destruct (path_extension p) as [e|]; [|discriminate].
    intros E. destruct (A E) as [rest [C N]].
    split; [exact N | exists rest; exact C].
  - intros e Pe. unfold has_supported_extension. subst tested.
    rewrite Pe in *. exact R.
  - intros Pe. subst tested. rewrite Pe in *. exact R.
  - intros n x. rewrite construct_int. discriminate.
  - intros q e E. destruct (PyStrFacts.in_EXTENSIONS_plain _ E) as [Pd Ps].
    rewrite PyStrFacts.extension_of_suffix; [exact E | |].
    + apply (PyStrFacts.all_chars_lower _ _ _ PyStrFacts.lower_char_dot Pd).
    + apply (PyStrFacts.all_chars_lower _ _ _ PyStrFacts.lower_char_slash Ps).
  - intros q e Pd Ps E. rewrite PyStrFacts.extension_of_suffix; assumption.
Qed.

(** C9.  When the extension is supported and the handle just opened reports
    not-open, construction raises the failed-to-read exception of line 82.
    At that point the only backend calls made are the open and the
    [isOpened] query: no property was read from or written to the handle,
    which is stored as the backend returned it, and width and height are
    still the arguments as given. *)
Theorem unopened_handle_fails_construction
    (p : string) bs dyn (w h : option Z) :
  in_EXTENSIONS (extension_of p) = true ->
  isOpened (VideoCapture (Filename p)) = false ->
  construct (PStr p) bs dyn w h =
  (Raise (FailedToReadFrom (Some p)),
   mkState (mkVideoReader (Some p) w h true None
              (Some (VideoCapture (Filename p))) (Finite (10 # 1))
              0 0 0 bs dyn (Some p))
     [COpen (Filename p); CIsOpened]).
Proof.
  intros E O. rewrite (construct_accepted p _ _ _ _ E).
  erewrite post_init_closed; [reflexivity | reflexivity | exact O].
Qed.

(** C8.  After a construction that succeeded, the width the adapter reports
    is the requested one when a width was given, whatever the backend does
    with the request, and otherwise the backend's reported width converted
    with [int]; the same for the height, whose backend value is read from
    the handle after the width request, if any, was applied. *)
Theorem reported_size_after_construction
    (path : Descriptor) bs dyn (w h : option Z) (st : State H) :
  construct path bs dyn w h = (Return tt, st) ->
  (forall w0, w = Some w0 -> fst (width st) = Return (Some w0)) /\
  (forall h0, h = Some h0 -> fst (height st) = Return (Some h0)) /\
  (w = None ->
   exists p v, path = PStr p /\
     int_of_float (cap_get CAP_PROP_FRAME_WIDTH (VideoCapture (Filename p)))
       = Return v /\
     fst (width st) = Return (Some v)) /\
  (h = None ->
   exists p v, path = PStr p /\
     int_of_float
       (cap_get CAP_PROP_FRAME_HEIGHT
          (match w with
           | Some w0 =>
               cap_set CAP_PROP_FRAME_WIDTH w0 (VideoCapture (Filename p))
           | None => VideoCapture (Filename p)
           end)) = Return v /\
     fst (height st) = Return (Some v)).
Proof.
  intros C. destruct (construct_returns _ _ _ _ _ _ C) as [p [-> [E O]]].
  rewrite (construct_accepted p _ _ _ _ E) in C.
  unfold_init. unfold width, height, attr. cbn in C. rewrite O in C.
  cbn in C.
  destruct w as [w0|], h as [h0|]; cbn in C.
  all: repeat match type of C with
       | context [int_of_float ?x] =>
           destruct (int_of_float x) eqn:?; cbn in C
       end; try discriminate.
  all: inversion C; subst; cbn.
  all: repeat split; try congruence; intros; try discriminate; eauto 10.
Qed.

End Construction.

(** ** Reading *)

Lemma replace_nth_app {A : Type} (pre : list A) (x y : A) (r : list A) :
  replace_nth (List.length pre) x (pre ++ y :: r)%list = (pre ++ x :: r)%list.
Proof.
  induction pre as [|a pre IH]; simpl; [reflexivity | now rewrite IH].
Qed.

Lemma firstn_exact {A : Type} (a b : list A) :
  firstn (List.length a) (a ++ b)%list = a.
Proof.
  induction a as [|x a IH]; cbn; [destruct b; reflexivity | now rewrite IH].
Qed.

(** Writing a fitting frame into the first zero slot. *)
Lemma np_setitem_next (rows cols : Z) (pre : list Slot) (m : nat) (f : Frame) :
  np_setitem (mkBatch rows cols (pre ++ repeat Zeros (S m))%list)
    (Z.of_nat (List.length pre)) f =
  if fits rows cols f
  then Return (mkBatch rows cols ((pre ++ [Wrote f]) ++ repeat Zeros m)%list)
  else Raise ValueError.
Proof.
  unfold np_setitem, np_len. cbn [b_slots b_rows b_cols].
  rewrite length_app, repeat_length.
  destruct (Z.ltb_spec (Z.of_nat (List.length pre)) 0) as [L|_]; [lia|].
  destruct (Z.ltb_spec (Z.of_nat (List.length pre)) 0) as [L|_]; [lia|].
  destruct (Z.leb_spec (Z.of_nat (List.length pre + S m))
              (Z.of_nat (List.length pre))) as [L|_]; [lia|].
  cbn [orb]. destruct (fits rows cols f); [|reflexivity].
  rewrite Nat2Z.id. cbn [repeat].
  rewrite replace_nth_app, <- app_assoc. reflexivity.
Qed.

(** What [np.zeros] needs to return the batch. *)
Section NumpyFacts.

Context {Np : Numpy}.

Lemma fits_intp_nonneg (d : Z) :
  0 <= d -> d <= NPY_MAX_INTP -> fits_intp d = true.
Proof.
  intros P L. unfold fits_intp. apply andb_true_iff. split.
  - apply Z.leb_le. assert (K : - 2 ^ 63 <= 0) by discriminate. lia.
  - apply Z.leb_le. exact L.
Qed.

Lemma np_zeros_ok_nonneg (n h w : Z) :
  np_zeros_ok n h w = true -> 0 <= n /\ 0 <= h /\ 0 <= w.
Proof.
  unfold np_zeros_ok. intros K.
  repeat (apply andb_true_iff in K; destruct K as [K ?]).
  repeat split; apply Z.leb_le; assumption.
Qed.

Lemma np_zeros_returns (n h w : Z) :
  np_zeros_ok n h w = true ->
  np_zeros (Some n) (Some h) (Some w)
  = Return (mkBatch h w (repeat Zeros (Z.to_nat n))).
Proof.
  unfold np_zeros_ok. intros K.
  repeat (apply andb_true_iff in K; destruct K as [K ?]).
  repeat match goal with
         | E : (_ <=? _) = true |- _ => apply Z.leb_le in E
         end.
  unfold np_zeros.
  rewrite (fits_intp_nonneg n), (fits_intp_nonneg h), (fits_intp_nonneg w)
    by assumption.
  cbn [negb].
  destruct (Z.ltb_spec n 0) as [L|_]; [lia|].
  destruct (Z.ltb_spec h 0) as [L|_]; [lia|].
  destruct (Z.ltb_spec w 0) as [L|_]; [lia|]. cbn [orb].
  destruct (Z.ltb_spec NPY_MAX_INTP (np_nbytes [n; h; w; 3])) as [L|_];
    [lia|].
  match goal with
  | E : np_can_allocate _ = true |- _ => rewrite E
  end.
  reflexivity.
Qed.

Lemma np_zeros_returned (n h w : option Z) (a : Batch) :
  np_zeros n h w = Return a ->
  exists n0 h0 w0,
    n = Some n0 /\ h = Some h0 /\ w = Some w0 /\
    np_zeros_ok n0 h0 w0 = true /\
    a = mkBatch h0 w0 (repeat Zeros (Z.to_nat n0)).
Proof.
  unfold np_zeros. destruct n as [n|]; [|discriminate].
  destruct (fits_intp n) eqn:Fn; [|discriminate]. cbn [negb].
  destruct h as [h|]; [|discriminate].
  destruct (fits_intp h) eqn:Fh; [|discriminate]. cbn [negb].
  destruct w as [w|]; [|discriminate].
  destruct (fits_intp w) eqn:Fw; [|discriminate]. cbn [negb].
  destruct (Z.ltb_spec n 0) as [L|Pn]; [discriminate|].
  destruct (Z.ltb_spec h 0) as [L|Ph]; [discriminate|].
  destruct (Z.ltb_spec w 0) as [L|Pw]; [discriminate|]. cbn [orb].
  destruct (Z.ltb_spec NPY_MAX_INTP (np_nbytes [n; h; w; 3])) as [L|Pb];
    [discriminate|].
  destruct (np_can_allocate [n; h; w; 3]) eqn:Mem;
    [|discriminate].
  intros E. injection E as <-. exists n, h, w.
  repeat (split; [reflexivity|]). split; [|reflexivity].
  unfold fits_intp in Fn, Fh, Fw.
  apply andb_true_iff in Fn, Fh, Fw.
  destruct Fn as [_ Fn], Fh as [_ Fh], Fw as [_ Fw].
  unfold np_zeros_ok. rewrite Fn, Fh, Fw, Mem.
  rewrite (proj2 (Z.leb_le 0 n) Pn), (proj2 (Z.leb_le 0 h) Ph),
    (proj2 (Z.leb_le 0 w) Pw), (proj2 (Z.leb_le _ _) Pb).
  reflexivity.
Qed.

End NumpyFacts.

Section Reading.

Context {H : Type} {B : Backend H} {Np : Numpy}.

Ltac unfold_read :=
  unfold read_batch, read_frame, is_open, height, width,
    stream_isOpened, stream_get, stream_set, stream_read, stream_release,
    with_stream, bind, ret, raise, lift, attr, assign, record_call in *.

(** [read_frame] on an object holding a handle: one backend read, the frame
    returned as it came, the counter bumped when there is a frame, the flag
    set to the backend's. *)
Lemma read_frame_eq (st : State H) (h : H) :
  _video_stream (self st) = Some h ->
  read_frame st =
  (Return (snd (fst (cap_read h))),
   mkState
     (set_is_open (fst (fst (cap_read h)))
        (set_frame_count
           (_frame_count (self st) +
            match snd (fst (cap_read h)) with None => 0 | Some _ => 1 end)
           (set_video_stream (Some (snd (cap_read h))) (self st))))
     (calls st ++ [CRead])).
Proof.
  intros Hs. unfold_read. cbn. rewrite Hs. reflexivity.
Qed.

Lemma read_frame_no_stream (st : State H) :
  _video_stream (self st) = None ->
  read_frame st = (Raise AttributeError, st).
Proof.
  intros Hs. unfold_read. cbn. rewrite Hs. reflexivity.
Qed.

(** [is_open] on an object holding a handle. *)
Lemma is_open_eq (st : State H) (h : H) :
  _video_stream (self st) = Some h ->
  is_open st =
  (Return (isOpened h && _is_open (self st)),
   mkState (self st) (calls st ++ [CIsOpened])).
Proof.
  intros Hs. unfold_read. cbn. rewrite Hs. cbn.
  destruct (isOpened h); reflexivity.
Qed.

Lemma is_open_no_stream (st : State H) :
  _video_stream (self st) = None ->
  is_open st = (Raise AttributeError, st).
Proof.
  intros Hs. unfold_read. cbn. rewrite Hs. reflexivity.
Qed.

Lemma next_frames_length (n : nat) (h : H) :
  (List.length (next_frames n h) <= n)%nat.
Proof.
  revert h. induction n as [|n IH]; intros h; cbn; [lia|].
  destruct (snd (fst (cap_read h))); cbn; [|lia].
  specialize (IH (snd (cap_read h))). lia.
Qed.

(** The loop of [read_batch], started at slot [length pre] with [m] zero
    slots to go, when every frame it meets fits: it writes the frames the
    handle delivers up to the first absent one, leaves the other slots zero,
    and ends with the loop variable on the last slot written. *)
Lemma fill_batch_run (m : nat) :
  forall (pre : list Slot) (i : option Z) (rows cols : Z)
         (st : State H) (h : H),
  _video_stream (self st) = Some h ->
  forallb (fits rows cols) (next_frames m h) = true ->
  exists st',
    fill_batch (map Z.of_nat (seq (List.length pre) m)) i
      (mkBatch rows cols (pre ++ repeat Zeros m)%list) st =
    (Return
       (match m with
        | O => i
        | S _ =>
            Some (Z.of_nat
                    (List.length pre + List.length (next_frames m h)) - 1)
        end,
        mkBatch rows cols
          (pre ++ map Wrote (next_frames m h) ++
           repeat Zeros (m - List.length (next_frames m h)))%list),
     st') /\
    _frame_count (self st') =
      _frame_count (self st) + Z.of_nat (List.length (next_frames m h)) /\
    _dynamic_batch (self st') = _dynamic_batch (self st).
Proof.
  induction m as [|m IH]; intros pre i rows cols st h Hs F.
  - exists st. cbn. split; [reflexivity|]. split; [lia|reflexivity].
  - cbn [seq map fill_batch]. unfold bind at 1. rewrite (read_frame_eq st h Hs).
    cbn [next_frames] in *.
    destruct (cap_read h) as [[flag [f|]] h'] eqn:R; cbn [fst snd] in *.
    + cbn [forallb] in F. apply andb_true_iff in F. destruct F as [Ff Fr].
      unfold bind at 1, lift at 1. rewrite np_setitem_next, Ff.
      specialize (IH (pre ++ [Wrote f])%list
        (Some (Z.of_nat (List.length pre))) rows cols
        (mkState
           (set_is_open flag
              (set_frame_count (_frame_count (self st) + 1)
                 (set_video_stream (Some h') (self st))))
           (calls st ++ [CRead])) h' eq_refl Fr).
      destruct IH as [st' [E [C D]]].
      rewrite length_app in E. cbn [List.length] in E.
      replace (List.length pre + 1)%nat with (S (List.length pre)) in E by lia.
      exists st'. rewrite E. cbn [List.length map]. split; [|split].
      * f_equal. f_equal. f_equal.
        -- destruct m; cbn [next_frames List.length]; f_equal; lia.
        -- rewrite <- app_assoc. reflexivity.
      * rewrite C.
        cbn [self _frame_count set_is_open set_frame_count List.length].
        lia.
      * rewrite D. reflexivity.
    + eexists. split; [|split].
      * unfold ret. cbn [map List.length repeat]. rewrite Nat.add_0_r.
        f_equal.
      * cbn [self _frame_count set_is_open set_frame_count List.length
             Z.of_nat].
        lia.
      * reflexivity.
Qed.

(** If the loop returned, every frame it met fitted. *)
Lemma fill_batch_returned (m : nat) :
  forall (pre : list Slot) (i : option Z) (rows cols : Z)
         (st : State H) (h : H) r st',
  _video_stream (self st) = Some h ->
  fill_batch (map Z.of_nat (seq (List.length pre) m)) i
    (mkBatch rows cols (pre ++ repeat Zeros m)%list) st = (Return r, st') ->
  forallb (fits rows cols) (next_frames m h) = true.
Proof.
  induction m as [|m IH]; intros pre i rows cols st h r st' Hs E;
    [reflexivity|].
  cbn [seq map fill_batch] in E. unfold bind at 1 in E.
  rewrite (read_frame_eq st h Hs) in E. cbn [next_frames].
  destruct (cap_read h) as [[flag [f|]] h'] eqn:R; cbn [fst snd] in *;
    [|reflexivity].
  unfold bind at 1, lift at 1 in E. rewrite np_setitem_next in E.
  cbn [forallb]. destruct (fits rows cols f); [|discriminate]. cbn [andb].
  replace (S (List.length pre)) with (List.length (pre ++ [Wrote f])%list) in E
    by (rewrite length_app; cbn; lia).
  eapply IH; [|exact E]. reflexivity.
Qed.

(** [read_batch] on an open adapter whose frames fit the batch. *)
Lemma read_batch_open (st : State H) (h : H) (n hh ww : Z) :
  _video_stream (self st) = Some h ->
  isOpened h && _is_open (self st) = true ->
  _batch_size (self st) = Some n ->
  _height (self st) = Some hh ->
  _width (self st) = Some ww ->
  np_zeros_ok n hh ww = true ->
  forallb (fits hh ww) (next_frames (Z.to_nat n) h) = true ->
  exists st',
    read_batch st =
    ((if _dynamic_batch (self st) then
        match Z.to_nat n with
        | O => Raise UnboundLocalError
        | S _ =>
            Return (Some (mkBatch hh ww
                            (map Wrote (next_frames (Z.to_nat n) h))))
        end
      else
        Return (Some (mkBatch hh ww
          (map Wrote (next_frames (Z.to_nat n) h) ++
           repeat Zeros
             (Z.to_nat n - List.length (next_frames (Z.to_nat n) h)))%list))),
     st') /\
    _frame_count (self st') =
      _frame_count (self st) +
      Z.of_nat (List.length (next_frames (Z.to_nat n) h)).
Proof.
  intros Hs Ho Hn Hh Hw Ok Hf.
  unfold read_batch. unfold bind at 1. rewrite (is_open_eq st h Hs), Ho.
  cbn [negb]. unfold height, width, attr, bind at 1 2 3. cbn [self].
  rewrite Hn, Hh, Hw. unfold bind at 1, lift at 1.
  rewrite (np_zeros_returns n hh ww Ok).
  unfold py_range.
  destruct (fill_batch_run (Z.to_nat n) [] None hh ww
              (mkState (self st) (calls st ++ [CIsOpened])) h Hs Hf)
    as [st' [E [C D]]].
  cbn [List.length app Nat.add] in E. unfold bind at 1. rewrite E.
  exists st'. split; [|exact C].
  unfold bind, attr. cbn [fst snd]. rewrite D. cbn [self].
  destruct (_dynamic_batch (self st)); [|reflexivity].
  destruct (Z.to_nat n) as [|m] eqn:En; [reflexivity|].
  unfold ret, np_slice_to, np_len. cbn [b_slots b_rows b_cols].
  set (fs := next_frames (S m) h).
  replace (Z.of_nat (List.length fs) - 1 + 1)
    with (Z.of_nat (List.length fs)) by lia.
  destruct (Z.ltb_spec (Z.of_nat (List.length fs)) 0) as [L|_]; [lia|].
  rewrite Nat2Z.id. rewrite <- (length_map Wrote fs) at 1.
  rewrite firstn_exact. reflexivity.
Qed.

(** The loop raises ValueError when one of the frames it meets does not
    fit. *)
Lemma fill_batch_unfit (m : nat) :
  forall (pre : list Slot) (i : option Z) (rows cols : Z)
         (st : State H) (h : H),
  _video_stream (self st) = Some h ->
  forallb (fits rows cols) (next_frames m h) = false ->
  exists st',
    fill_batch (map Z.of_nat (seq (List.length pre) m)) i
      (mkBatch rows cols (pre ++ repeat Zeros m)%list) st
    = (Raise ValueError, st').
Proof.
  induction m as [|m IH]; intros pre i rows cols st h Hs F;
    [discriminate F|].
  cbn [seq map fill_batch]. unfold bind at 1. rewrite (read_frame_eq st h Hs).
  cbn [next_frames] in F.
  destruct (cap_read h) as [[flag [f|]] h'] eqn:R; cbn [fst snd] in *;
    [|discriminate F].
  unfold bind at 1, lift at 1. rewrite np_setitem_next.
  cbn [forallb] in F. destruct (fits rows cols f); [|eexists; reflexivity].
  cbn [andb] in F.
  replace (S (List.length pre)) with (List.length (pre ++ [Wrote f])%list)
    by (rewrite length_app; cbn; lia).
  eapply IH; [reflexivity | exact F].
Qed.

(** [read_batch] on an open adapter that meets a frame that does not fit. *)
Lemma read_batch_unfit (st : State H) (h : H) (n hh ww : Z) :
  _video_stream (self st) = Some h ->
  isOpened h && _is_open (self st) = true ->
  _batch_size (self st) = Some n ->
  _height (self st) = Some hh ->
  _width (self st) = Some ww ->
  np_zeros_ok n hh ww = true ->
  forallb (fits hh ww) (next_frames (Z.to_nat n) h) = false ->
  exists st', read_batch st = (Raise ValueError, st').
Proof.
  intros Hs Ho Hn Hh Hw Ok Hf.
  unfold read_batch. unfold bind at 1. rewrite (is_open_eq st h Hs), Ho.
  cbn [negb]. unfold height, width, attr, bind at 1 2 3. cbn [self].
  rewrite Hn, Hh, Hw. unfold bind at 1, lift at 1.
  rewrite (np_zeros_returns n hh ww Ok).
  unfold py_range.
  destruct (fill_batch_unfit (Z.to_nat n) [] None hh ww
              (mkState (self st) (calls st ++ [CIsOpened])) h Hs Hf)
    as [st' E].
  cbn [List.length app] in E. unfold bind at 1. rewrite E.
  exists st'. reflexivity.
Qed.

Lemma is_open_true (st : State H) (h : H) :
  _video_stream (self st) = Some h ->
  fst (is_open st) = Return true ->
  isOpened h && _is_open (self st) = true.
Proof.
  intros Hs Ho. rewrite (is_open_eq st h Hs) in Ho. cbn in Ho. congruence.
Qed.

(** C7 (amended).  On an open adapter with dynamic batching off and a batch
    size [n], when numpy can make the batch of [n, height, width, 3]:
    if every frame the handle delivers during the call fits a slot of the
    height and width of the adapter, [read_batch] returns a batch of shape
    [n, height, width, 3] whose first slots hold, in order, the frames
    delivered before the first absent read and whose every slot after them
    is still zero, however many frames there were; if one of them does not
    fit, [read_batch] raises ValueError. *)
Theorem padded_batch (st : State H) (h : H) (n hh ww : Z) :
  _video_stream (self st) = Some h ->
  fst (is_open st) = Return true ->
  _batch_size (self st) = Some n ->
  _height (self st) = Some hh ->
  _width (self st) = Some ww ->
  np_zeros_ok n hh ww = true ->
  _dynamic_batch (self st) = false ->
  (forallb (fits hh ww) (next_frames (Z.to_nat n) h) = true ->
   exists b st',
     read_batch st = (Return (Some b), st') /\
     np_shape b = [n; hh; ww; 3] /\
     np_len b = n /\
     b_slots b =
       (map Wrote (next_frames (Z.to_nat n) h) ++
        repeat Zeros
          (Z.to_nat n - List.length (next_frames (Z.to_nat n) h)))%list /\
     (forall j f,
        nth_error (next_frames (Z.to_nat n) h) j = Some f ->
        nth_error (b_slots b) j = Some (Wrote f)) /\
     (forall j,
        (List.length (next_frames (Z.to_nat n) h) <= j < Z.to_nat n)%nat ->
        nth_error (b_slots b) j = Some Zeros)) /\
  (forallb (fits hh ww) (next_frames (Z.to_nat n) h) = false ->
   exists st', read_batch st = (Raise ValueError, st')).
Proof.
  intros Hs Ho Hn Hh Hw Ok Hd.
  pose proof (is_open_true st h Hs Ho) as Ho'.
  destruct (np_zeros_ok_nonneg n hh ww Ok) as [Pn _].
  split; [|apply (read_batch_unfit st h n hh ww Hs Ho' Hn Hh Hw Ok)].
  intros Hf.
  destruct (read_batch_open st h n hh ww Hs Ho' Hn Hh Hw Ok Hf)
    as [st' [E _]].
  rewrite Hd in E. pose proof (next_frames_length (Z.to_nat n) h) as L.
  set (fs := next_frames (Z.to_nat n) h) in *.
  eexists. exists st'. split; [exact E|].
  assert (Len : Z.of_nat (List.length
                  (map Wrote fs ++
                   repeat Zeros (Z.to_nat n - List.length fs))%list) = n).
  { rewrite length_app, length_map, repeat_length. lia. }
  split; [|split; [|split; [|split]]].
  - unfold np_shape. cbn [b_slots b_rows b_cols]. rewrite Len. reflexivity.
  - unfold np_len. cbn [b_slots]. exact Len.
  - reflexivity.
  - intros j f Hj. cbn [b_slots]. rewrite nth_error_app1.
    + rewrite nth_error_map, Hj. reflexivity.
    + rewrite length_map. apply nth_error_Some. congruence.
  - intros j Hj. cbn [b_slots]. rewrite nth_error_app2.
    + rewrite length_map. apply nth_error_repeat. lia.
    + rewrite length_map. lia.
Qed.

(** C3 (amended).  On an open adapter with dynamic batching on and a batch
    size [n >= 1], when numpy can make the batch of [n, height, width, 3]:
    if every frame the handle delivers during the call fits a slot of the
    height and width of the adapter, [read_batch] returns exactly the frames
    delivered before the first absent read, in order and with no zero slot,
    so its length is their number, between 0 and [n], and is 0 when the
    first read of the batch is absent; if one of them does not fit,
    [read_batch] raises ValueError. *)
Theorem dynamic_batch_length (st : State H) (h : H) (n hh ww : Z) :
  _video_stream (self st) = Some h ->
  fst (is_open st) = Return true ->
  _batch_size (self st) = Some n -> 1 <= n ->
  _height (self st) = Some hh ->
  _width (self st) = Some ww ->
  np_zeros_ok n hh ww = true ->
  _dynamic_batch (self st) = true ->
  (forallb (fits hh ww) (next_frames (Z.to_nat n) h) = true ->
   exists b st',
     read_batch st = (Return (Some b), st') /\
     b_slots b = map Wrote (next_frames (Z.to_nat n) h) /\
     np_len b = Z.of_nat (List.length (next_frames (Z.to_nat n) h)) /\
     0 <= np_len b <= n /\
     ~ In Zeros (b_slots b) /\
     np_shape b = [np_len b; hh; ww; 3] /\
     (snd (fst (cap_read h)) = None -> np_len b = 0)) /\
  (forallb (fits hh ww) (next_frames (Z.to_nat n) h) = false ->
   exists st', read_batch st = (Raise ValueError, st')).
Proof.
  intros Hs Ho Hn Pn Hh Hw Ok Hd.
  pose proof (is_open_true st h Hs Ho) as Ho'.
  split; [|apply (read_batch_unfit st h n hh ww Hs Ho' Hn Hh Hw Ok)].
  intros Hf.
  destruct (read_batch_open st h n hh ww Hs Ho' Hn Hh Hw Ok Hf)
    as [st' [E _]].
  rewrite Hd in E. pose proof (next_frames_length (Z.to_nat n) h) as L.
  destruct (Z.to_nat n) as [|m] eqn:En; [lia|]. rewrite <- En in *.
  set (fs := next_frames (Z.to_nat n) h) in *.
  eexists. exists st'. split; [exact E|].
  unfold np_len, np_shape. cbn [b_slots b_rows b_cols].
  rewrite length_map.
  split; [reflexivity|]. split; [reflexivity|]. split; [lia|].
  split; [|split; [reflexivity|]].
  - intros I. apply in_map_iff in I. destruct I as [f [Wf _]]. discriminate.
  - intros R. subst fs. rewrite En. cbn [next_frames]. rewrite R.
    reflexivity.
Qed.

(** C10.  With dynamic batching on and a batch size [n >= 1], when numpy
    can make the batch of [n, height, width, 3], an open adapter whose
    backend answers the first read of a batch with [(False, None)] gets from
    [read_batch] a batch that is present and has length 0; only the next
    call returns the absent value.  A caller iterating with [__next__] is
    handed that empty batch, and the iteration ends one call later. *)
Theorem empty_batch_before_end (st : State H) (h : H) (n hh ww : Z) :
  _video_stream (self st) = Some h ->
  fst (is_open st) = Return true ->
  _batch_size (self st) = Some n -> 1 <= n ->
  _height (self st) = Some hh ->
  _width (self st) = Some ww ->
  np_zeros_ok n hh ww = true ->
  _dynamic_batch (self st) = true ->
  fst (cap_read h) = (false, None) ->
  exists st1 st2,
    read_batch st = (Return (Some (mkBatch hh ww [])), st1) /\
    np_len (mkBatch hh ww []) = 0 /\
    read_batch st1 = (Return None, st2) /\
    __next__ st = (Return (VBatch (mkBatch hh ww [])), st1) /\
    __next__ st1 = (Raise StopIteration, st2) /\
    _frame_count (self st2) = _frame_count (self st).
Proof.
  intros Hs Ho Hn Pn Hh Hw Ok Hd R.
  pose proof (is_open_true st h Hs Ho) as Ho'.
  set (st1 := mkState
                (set_is_open false
                   (set_frame_count (_frame_count (self st) + 0)
                      (set_video_stream (Some (snd (cap_read h))) (self st))))
                ((calls st ++ [CIsOpened]) ++ [CRead])).
  assert (E1 : read_batch st = (Return (Some (mkBatch hh ww [])), st1)).
  { unfold read_batch. unfold bind at 1. rewrite (is_open_eq st h Hs), Ho'.
    cbn [negb]. unfold height, width, attr, bind at 1 2 3. cbn [self].
    rewrite Hn, Hh, Hw. unfold bind at 1, lift at 1.
    rewrite (np_zeros_returns n hh ww Ok).
    unfold py_range. destruct (Z.to_nat n) as [|m] eqn:En; [lia|].
    cbn [seq map fill_batch]. unfold bind at 1 2.
    erewrite read_frame_eq by exact Hs. rewrite R. cbn [fst snd].
    unfold ret, bind, attr. cbn [fst snd self set_is_open _dynamic_batch
      set_frame_count set_video_stream]. rewrite Hd.
    reflexivity. }
  assert (E2 : read_batch st1 =
               (Return None, mkState (self st1) (calls st1 ++ [CIsOpened]))).
  { unfold read_batch. unfold bind at 1.
    rewrite (is_open_eq st1 (snd (cap_read h)) eq_refl).
    cbn [st1 self _is_open set_is_open]. rewrite andb_false_r. reflexivity. }
  exists st1, (mkState (self st1) (calls st1 ++ [CIsOpened])).
  split; [exact E1|]. split; [reflexivity|]. split; [exact E2|].
  split; [|split].
  - unfold __next__, read. unfold bind at 1 2, attr at 1. rewrite Hn.
    unfold bind at 1. rewrite E1. reflexivity.
  - unfold __next__, read. unfold bind at 1 2, attr at 1.
    cbn [st1 self _batch_size set_is_open set_frame_count set_video_stream].
    rewrite Hn. unfold bind at 1. fold st1. rewrite E2. reflexivity.
  - cbn. lia.
Qed.

(** *** The frame counter never goes down *)

Lemma nd_ret {A : Type} (a : A) : never_decreases (ret (H := H) a).
Proof. intros st. cbn. lia. Qed.

Lemma nd_raise {A : Type} (e : PyErr) :
  never_decreases (raise (H := H) (A := A) e).
Proof. intros st. cbn. lia. Qed.

Lemma nd_lift {A : Type} (o : Outcome A) : never_decreases (lift (H := H) o).
Proof. intros st. cbn. lia. Qed.

Lemma nd_attr {A : Type} (f : VideoReader H -> A) : never_decreases (attr f).
Proof. intros st. cbn. lia. Qed.

Lemma nd_record_call (c : Call) : never_decreases (record_call (H := H) c).
Proof. intros st. cbn. lia. Qed.

Lemma nd_assign (f : VideoReader H -> VideoReader H) :
  (forall o, _frame_count o <= _frame_count (f o)) ->
  never_decreases (assign f).
Proof. intros Hf st. cbn. apply Hf. Qed.

Lemma nd_bind {A C : Type} (m : M H A) (k : A -> M H C) :
  never_decreases m -> (forall a, never_decreases (k a)) ->
  never_decreases (bind m k).
Proof.
  intros Hm Hk st. unfold bind. specialize (Hm st).
  destruct (m st) as [[e|a] st1]; cbn in *; [exact Hm|].
  specialize (Hk a st1). lia.
Qed.

Create HintDb counter.

#[local] Hint Resolve nd_ret nd_raise nd_lift nd_attr nd_record_call
  : counter.

Ltac nd_step :=
  first
    [ solve [auto with counter]
    | apply nd_bind; [|intros ?]
    | apply nd_assign; intros ?; cbn; lia
    | match goal with
      | |- never_decreases (match ?x with _ => _ end) => destruct x
      end ].

Ltac nd := repeat nd_step.

Lemma nd_with_stream {A : Type} (k : H -> M H A) :
  (forall h, never_decreases (k h)) -> never_decreases (with_stream k).
Proof. intros Hk. unfold with_stream. nd. Qed.

Lemma nd_is_open : never_decreases is_open.
Proof.
  unfold is_open, stream_isOpened. nd.
Qed.

Lemma nd_read_frame : never_decreases read_frame.
Proof.
  unfold read_frame, stream_read. nd.
  apply nd_assign. intros o. cbn. destruct (snd a); lia.
Qed.

#[local] Hint Resolve nd_is_open nd_read_frame : counter.

Lemma nd_fill_batch (todo : list Z) :
  forall i batch, never_decreases (fill_batch todo i batch).
Proof.
  induction todo as [|j rest IH]; intros i batch; cbn [fill_batch]; nd.
Qed.

Lemma nd_read_batch : never_decreases read_batch.
Proof.
  unfold read_batch, height, width. nd; apply nd_fill_batch.
Qed.

#[local] Hint Resolve nd_read_batch : counter.

Lemma nd_read : never_decreases read.
Proof. unfold read. nd. Qed.

Lemma nd_release : never_decreases release.
Proof.
  unfold release, stream_release. nd.
Qed.

#[local] Hint Resolve nd_read nd_release : counter.

Lemma nd_do_read (r : ReadCall) : never_decreases (do_read r).
Proof.
  destruct r; cbn [do_read]; nd.
  intros st. assert (N : never_decreases __next__) by (unfold __next__; nd).
  specialize (N st). destruct (__next__ st) as [[[]|v] st1]; exact N.
Qed.

Lemma nd_run_op (op : Op) : never_decreases (run_op op).
Proof.
  destruct op; cbn [run_op]; unfold show, video_title, __del__, __exit__; nd.
  apply nd_do_read.
Qed.

Lemma run_ops_frame_count (ops : list Op) :
  forall st, _frame_count (self st) <= _frame_count (self (run_ops ops st)).
Proof.
  induction ops as [|op rest IH]; intros st; cbn [run_ops]; [lia|].
  pose proof (nd_run_op op st). specialize (IH (snd (run_op op st))). lia.
Qed.

Lemma frames_in_written (rows cols : Z) (fs : list Frame) (k : nat) :
  frames_in (mkBatch rows cols (map Wrote fs ++ repeat Zeros k)%list)
  = Z.of_nat (List.length fs).
Proof.
  unfold frames_in. cbn [b_slots]. f_equal. rewrite filter_app, length_app.
  replace (List.length
             (filter (fun s => match s with Wrote _ => true | Zeros => false end)
                (repeat Zeros k))) with 0%nat
    by (induction k; cbn; auto).
  rewrite Nat.add_0_r. induction fs as [|f fs IH]; cbn; [reflexivity|].
  now rewrite IH.
Qed.

(** When [read_batch] returns a batch, the adapter was open, the batch size
    and the sizes were usable, and every frame read fitted. *)
Lemma read_batch_returned (st : State H) (b : Batch) (st' : State H) :
  read_batch st = (Return (Some b), st') ->
  exists h n hh ww,
    _video_stream (self st) = Some h /\
    isOpened h && _is_open (self st) = true /\
    _batch_size (self st) = Some n /\
    _height (self st) = Some hh /\
    _width (self st) = Some ww /\
    np_zeros_ok n hh ww = true /\
    forallb (fits hh ww) (next_frames (Z.to_nat n) h) = true.
Proof.
  intros E. destruct (_video_stream (self st)) as [h|] eqn:Hs.
  2:{ unfold read_batch in E. unfold bind at 1 in E.
      rewrite (is_open_no_stream st Hs) in E. discriminate. }
  unfold read_batch in E. unfold bind at 1 in E.
  rewrite (is_open_eq st h Hs) in E.
  destruct (isOpened h && _is_open (self st)) eqn:Ho; [|discriminate].
  cbn [negb] in E. unfold height, width, attr, bind at 1 2 3 in E.
  cbn [self] in E.
  unfold bind at 1, lift at 1 in E.
  destruct (np_zeros (_batch_size (self st)) (_height (self st))
              (_width (self st))) as [e0|a] eqn:Z0; [discriminate|].
  destruct (np_zeros_returned _ _ _ a Z0)
    as [n [hh [ww [Hn [Hh [Hw [Ok ->]]]]]]].
  rewrite Hn in E. unfold bind at 1 in E.
  destruct (fill_batch (py_range n) None
              (mkBatch hh ww (repeat Zeros (Z.to_nat n)))
              (mkState (self st) (calls st ++ [CIsOpened])))
    as [[e|r] st1] eqn:F; [discriminate|].
  exists h, n, hh, ww. repeat (split; [first [reflexivity | assumption]|]).
  exact (fill_batch_returned (Z.to_nat n) [] None hh ww
           (mkState (self st) (calls st ++ [CIsOpened])) h r st1 Hs F).
Qed.

Lemma read_batch_counts (st : State H) (b : Batch) (st' : State H) :
  read_batch st = (Return (Some b), st') ->
  _frame_count (self st') = _frame_count (self st) + frames_in b.
Proof.
  intros E.
  destruct (read_batch_returned st b st' E)
    as [h [n [hh [ww [Hs [Ho [Hn [Hh [Hw [Ok Hf]]]]]]]]]].
  destruct (read_batch_open st h n hh ww Hs Ho Hn Hh Hw Ok Hf)
    as [st'' [E' C]].
  rewrite E in E'. destruct (_dynamic_batch (self st)).
  - destruct (Z.to_nat n); [discriminate|].
    injection E' as -> ->. rewrite C.
    rewrite <- (app_nil_r (map Wrote _)).
    rewrite (frames_in_written hh ww _ 0). reflexivity.
  - injection E' as -> ->. rewrite C, frames_in_written. reflexivity.
Qed.

(** C6.  The frame counter is 0 after [__init__], whatever the object held
    before it ran and whether it returned or raised, so it is 0 after
    construction; a [read_frame] that returns a frame adds exactly 1 and one
    that returns the absent value adds nothing; a [read_batch] that returns
    a batch adds the number of slots that hold a frame, so zero slots are
    not counted; and no operation of the adapter, returning or raising,
    makes the counter go down, nor does any sequence of them. *)
Theorem frame_count_counts_frames :
  (forall path bs dyn (w h : option Z) (st0 : State H),
     _frame_count (self (snd (__init__ path bs dyn w h st0))) = 0) /\
  (forall path bs dyn (w h : option Z),
     _frame_count (self (snd (@construct H B path bs dyn w h))) = 0) /\
  (forall (st : State H) f st',
     read_frame st = (Return (Some f), st') ->
     _frame_count (self st') = _frame_count (self st) + 1) /\
  (forall (st : State H) st',
     read_frame st = (Return None, st') ->
     _frame_count (self st') = _frame_count (self st)) /\
  (forall (st : State H) b st',
     read_batch st = (Return (Some b), st') ->
     _frame_count (self st') = _frame_count (self st) + frames_in b) /\
  (forall op (st : State H),
     _frame_count (self st) <= _frame_count (self (snd (run_op op st)))) /\
  (forall ops (st : State H),
     _frame_count (self st) <= _frame_count (self (run_ops ops st))).
Proof.
  split; [|split; [|split; [|split; [|split; [|split]]]]].
  - intros. apply init_frame_count.
  - intros. apply construct_frame_count.
  - intros st f st' E. destruct (_video_stream (self st)) as [h|] eqn:Hs.
    + rewrite (read_frame_eq st h Hs) in E. injection E as E1 <-.
      cbn. rewrite E1. reflexivity.
    + rewrite (read_frame_no_stream st Hs) in E. discriminate.
  - intros st st' E. destruct (_video_stream (self st)) as [h|] eqn:Hs.
    + rewrite (read_frame_eq st h Hs) in E. injection E as E1 <-.
      cbn. rewrite E1. lia.
    + rewrite (read_frame_no_stream st Hs) in E. discriminate.
  - apply read_batch_counts.
  - intros op st. apply nd_run_op.
  - intros ops st. apply run_ops_frame_count.
Qed.

(** *** A closed adapter *)



Lemma closed_is_open (st : State H) (h : H) :
  _video_stream (self st) = Some h ->
  (fst (is_open st) = Return false <-> closed_on st h).
Proof.
  intros Hs. rewrite (is_open_eq st h Hs). cbn [fst]. unfold closed_on.
  split.
  - intros E. split; [exact Hs | congruence].
  - intros [_ E]. rewrite E. reflexivity.
Qed.

(** A closed adapter answers [read_batch] with the absent value, without
    reading from the backend and without changing the object. *)
Lemma read_batch_closed (st : State H) (h : H) :
  closed_on st h ->
  read_batch st =
  (Return None, mkState (self st) (calls st ++ [CIsOpened])).
Proof.
  intros [Hs Ho]. unfold read_batch. unfold bind at 1.
  rewrite (is_open_eq st h Hs), Ho. reflexivity.
Qed.





(** *** Release *)

Lemma release_no_stream (st : State H) :
  _video_stream (self st) = None -> release st = (Return tt, st).
Proof.
  intros Hs. unfold release, bind, attr. rewrite Hs. reflexivity.
Qed.

Lemma release_eq (st : State H) (h : H) :
  _video_stream (self st) = Some h ->
  release st =
  (match fst (cap_release h) with
   | Some e => Raise e
   | None => Return tt
   end,
   mkState (set_video_stream (Some (snd (cap_release h))) (self st))
     (calls st ++ [CRelease])).
Proof.
  intros Hs. unfold release, stream_release, with_stream, bind, attr, assign,
    record_call, ret, raise. rewrite Hs. cbn. rewrite Hs.
  destruct (fst (cap_release h)); reflexivity.
Qed.

Lemma times_release_no_stream (n : nat) (st : State H) :
  _video_stream (self st) = None -> times n release st = (Return tt, st).
Proof.
  intros Hs. induction n as [|n IH]; [reflexivity|].
  cbn [times]. unfold bind. rewrite (release_no_stream st Hs). exact IH.
Qed.

Lemma times_release_safe (n : nat) :
  (forall h : H, fst (cap_release h) = None) ->
  forall st : State H, fst (times n release st) = Return tt.
Proof.
  intros Safe. induction n as [|n IH]; intros st; [reflexivity|].
  cbn [times]. unfold bind.
  destruct (_video_stream (self st)) as [h|] eqn:Hs.
  - rewrite (release_eq st h Hs), (Safe h). apply IH.
  - rewrite (release_no_stream st Hs). apply IH.
Qed.

(** C4 (amended).  [release] has no exception handling of its own: it does
    nothing when no handle is stored, and otherwise calls the backend's
    [release] and ends the way that call ends, so an exception raised by the
    backend comes out of [release] unchanged.  It follows that [release] can
    be called any number of times without raising after a construction that
    failed at the extension test or on an [int] descriptor (no handle was
    stored), and from any state when the backend's [release] does not raise;
    under the same condition [__del__] completes and clears the handle. *)
Theorem release_follows_backend (st : State H) :
  (_video_stream (self st) = None ->
   forall n, times n release st = (Return tt, st)) /\
  (forall h,
     _video_stream (self st) = Some h ->
     fst (release st) =
     match fst (cap_release h) with
     | Some e => Raise e
     | None => Return tt
     end) /\
  (forall path bs dyn (w h : option Z) n,
     (fst (@construct H B path bs dyn w h) = Raise TypeError \/
      exists x,
        fst (@construct H B path bs dyn w h)
          = Raise (InvalidFileExtension x)) ->
     times n release (snd (@construct H B path bs dyn w h))
       = (Return tt, snd (@construct H B path bs dyn w h))) /\
  ((forall h : H, fst (cap_release h) = None) ->
   (forall n, fst (times n release st) = Return tt) /\
   fst (__del__ st) = Return tt /\
   _video_stream (self (snd (__del__ st))) = None).
Proof.
  split; [|split; [|split]].
  - intros Hs n. apply times_release_no_stream, Hs.
  - intros h Hs. rewrite (release_eq st h Hs). reflexivity.
  - intros path bs dyn w h n E.
    apply times_release_no_stream.
    destruct path as [p|k]; [|reflexivity].
    destruct (in_EXTENSIONS (extension_of p)) eqn:X.
    + exfalso. rewrite (construct_accepted p _ _ _ _ X) in E.
      revert E. unfold _post_init, is_open, stream_isOpened, stream_get,
        stream_set, with_stream, bind, ret, raise, lift, attr, assign,
        record_call. cbn.
      destruct (isOpened (VideoCapture (Filename p))); cbn;
        [|intros [E|[x E]]; discriminate E].
      destruct w, h; cbn;
        repeat match goal with
               | |- context [int_of_float ?x] => destruct x; cbn
               end;
        intros [E|[x E]]; discriminate E.
    + rewrite (construct_rejected p _ _ _ _ X). reflexivity.
  - intros Safe. split; [|split].
    + intros n. apply times_release_safe, Safe.
    + unfold __del__, bind.
      destruct (_video_stream (self st)) as [h|] eqn:Hs.
      * rewrite (release_eq st h Hs), (Safe h). reflexivity.
      * rewrite (release_no_stream st Hs). reflexivity.
    + unfold __del__, bind.
      destruct (_video_stream (self st)) as [h|] eqn:Hs.
      * rewrite (release_eq st h Hs), (Safe h). reflexivity.
      * rewrite (release_no_stream st Hs). reflexivity.
Qed.

End Reading.


(** ** Concrete runs on the scripted backend *)

Ltac by_run := vm_compute; reflexivity.


(** C1, at the descriptors ["0"] and [0]. *)
Lemma numeric_descriptor_rejected_witness :
  PyStr.isdigit "0" = true /\
  @construct Script (Scripted (always one_frame_file)) (PStr "0")
    None false None None
    = (Raise (InvalidFileExtension "0"), initial_props) /\
  @construct Script (Scripted (always one_frame_file)) (PInt WEBCAM)
    None false None None
    = (Raise TypeError, initial_props).
Proof.
  split; [by_run|].
  assert (D : PyStr.isdigit "0" = true) by by_run.
  destruct (@numeric_descriptor_rejected Script
              (Scripted (always one_frame_file)) "0" WEBCAM None false
              None None D) as [A [C _]].
  split; [exact A | exact C].
Defined.

(** C5 (what the claim says fails).  The path ["mp4"] has no extension, so
    it is not a path with a supported extension; construction does not raise
    the invalid-extension exception for it, and opens the backend by file
    name.  The same holds for ["clips/MP4"]. *)
Lemma dotless_name_passes_validation :
  let B := Scripted (always one_frame_file) in
  path_extension "mp4" = None /\
  has_supported_extension "mp4" = false /\
  fst (@construct Script B (PStr "mp4") None false None None) = Return tt /\
  hd_error (calls (snd (@construct Script B (PStr "mp4") None false
                          None None)))
    = Some (COpen (Filename "mp4")) /\
  path_extension "clips/MP4" = None /\
  fst (@construct Script B (PStr "clips/MP4") None false None None)
    = Return tt.
Proof. vm_compute. repeat split. Qed.

(** C5 (amended), at a path with a supported extension, at one with an
    unsupported extension, and at two paths without extension. *)
Lemma extension_validation_witness :
  let B := Scripted (always one_frame_file) in
  has_supported_extension "clips/Take.1.MP4" = true /\
  (exists rest,
     calls (snd (@construct Script B (PStr "clips/Take.1.MP4") None false
                   None None))
     = COpen (Filename "clips/Take.1.MP4") :: rest) /\
  path_extension "notes.txt" = Some "txt" /\
  @construct Script B (PStr "notes.txt") None false None None
    = (Raise (InvalidFileExtension "notes.txt"), initial_props) /\
  path_extension "README" = None /\
  @construct Script B (PStr "README") None false None None
    = (Raise (InvalidFileExtension "README"), initial_props) /\
  path_extension "mp4" = None /\
  (exists rest,
     calls (snd (@construct Script B (PStr "mp4") None false None None))
     = COpen (Filename "mp4") :: rest).
Proof.
  intros B.
  assert (Y : has_supported_extension "clips/Take.1.MP4" = true) by by_run.
  assert (P : path_extension "notes.txt" = Some "txt") by by_run.
  assert (N : has_supported_extension "notes.txt" = false) by by_run.
  assert (P1 : path_extension "README" = None) by by_run.
  assert (N1 : in_EXTENSIONS (PyStr.lower (final_component "README")) = false)
    by by_run.
  assert (P2 : path_extension "mp4" = None) by by_run.
  assert (Y2 : in_EXTENSIONS
                 (PyStr.lower match path_extension "mp4" with
                              | Some x => x
                              | None => final_component "mp4"
                              end) = true) by by_run.
  destruct (@extension_validation Script B "clips/Take.1.MP4" None false
              None None) as [_ [_ [_ [_ [S _]]]]].
  destruct (@extension_validation Script B "notes.txt" None false None None)
    as [_ [_ [_ [_ [_ [X _]]]]]].
  destruct (@extension_validation Script B "README" None false None None)
    as [_ [_ [_ [_ [_ [_ [D _]]]]]]].
  destruct (@extension_validation Script B "mp4" None false None None)
    as [_ [_ [_ [A _]]]].
  split; [exact Y|]. split; [exact (proj2 (S Y))|]. split; [exact P|].
  split; [exact (proj1 (X "txt" P) N)|]. split; [exact P1|].
  split; [exact (proj1 (D P1) N1)|]. split; [exact P2|].
  exact (A Y2).
Defined.

(** C9, at a source that did not open. *)
Lemma unopened_handle_fails_construction_witness :
  in_EXTENSIONS (extension_of "clip.mp4") = true /\
  @isOpened Script (Scripted (always missing_file))
    (@VideoCapture Script (Scripted (always missing_file))
       (Filename "clip.mp4")) = false /\
  fst (@construct Script (Scripted (always missing_file)) (PStr "clip.mp4")
         None false (Some 640) (Some 480))
    = Raise (FailedToReadFrom (Some "clip.mp4")) /\
  calls (snd (@construct Script (Scripted (always missing_file))
                (PStr "clip.mp4") None false (Some 640) (Some 480)))
    = [COpen (Filename "clip.mp4"); CIsOpened].
Proof.
  assert (Y : in_EXTENSIONS (extension_of "clip.mp4") = true) by by_run.
  assert (O : @isOpened Script (Scripted (always missing_file))
                (@VideoCapture Script (Scripted (always missing_file))
                   (Filename "clip.mp4")) = false) by by_run.
  split; [exact Y|]. split; [exact O|].
  rewrite (@unopened_handle_fails_construction Script
             (Scripted (always missing_file)) "clip.mp4" None false
             (Some 640) (Some 480) Y O).
  split; reflexivity.
Defined.

(** C8, at a backend that reports 2 by 2 and ignores the requested width. *)
Lemma reported_size_after_construction_witness :
  let st := snd (@construct Script (Scripted (always one_frame_file))
                   (PStr "clip.mp4") None false (Some 640) None) in
  @construct Script (Scripted (always one_frame_file)) (PStr "clip.mp4")
    None false (Some 640) None = (Return tt, st) /\
  fst (width st) = Return (Some 640) /\
  fst (height st) = Return (Some 2) /\
  option_map (script_get CAP_PROP_FRAME_WIDTH) (_video_stream (self st))
    = Some (Finite (2 # 1)).
Proof.
  intros st.
  assert (C : @construct Script (Scripted (always one_frame_file))
                (PStr "clip.mp4") None false (Some 640) None
              = (Return tt, st)) by by_run.
  destruct (@reported_size_after_construction Script
              (Scripted (always one_frame_file)) (PStr "clip.mp4") None false
              (Some 640) None st C) as [W [_ [_ Hh]]].
  split; [exact C|]. split; [exact (W 640 eq_refl)|].
  split.
  - destruct (Hh eq_refl) as [p [v [P [V E]]]]. rewrite E.
    injection P as <-. vm_compute in V. injection V as <-. reflexivity.
  - by_run.
Defined.

(** C7 (what the claim says fails).  A reader constructed with a width and
    a height of 5 over a file whose frames are 2 by 2 is open, and its
    [read_batch], with dynamic batching off, raises ValueError: the frame
    cannot be written into the slot. *)
Lemma padded_batch_unfit_frame :
  let B := Scripted (always one_frame_file) in
  let st := snd (@construct Script B (PStr "clip.mp4") (Some 2) false
                   (Some 5) (Some 5)) in
  fst (@construct Script B (PStr "clip.mp4") (Some 2) false (Some 5) (Some 5))
    = Return tt /\
  fst (@is_open Script B st) = Return true /\
  _dynamic_batch (self st) = false /\
  fst (@read_batch Script B machine st) = Raise ValueError.
Proof. vm_compute. repeat split. Qed.

(** C7 (amended), at a file of one frame read with a batch size of 3, and
    at a reader whose slots are 5 by 5 while the frames are 2 by 2. *)
Lemma padded_batch_witness :
  let B := Scripted (always one_frame_file) in
  let st5 := snd (@construct Script B (PStr "clip.mp4") (Some 2) false
                    (Some 5) (Some 5)) in
  (exists b st',
     @read_batch Script B machine
       (sample_reader one_frame_file (Some 3) false)
       = (Return (Some b), st') /\
     np_shape b = [3; 2; 2; 3] /\
     b_slots b = [Wrote (sample_frame 1); Zeros; Zeros]) /\
  (exists st', @read_batch Script B machine st5 = (Raise ValueError, st')).
Proof.
  intros B st5.
  set (st := sample_reader one_frame_file (Some 3) false).
  assert (Hs : _video_stream (self st) = Some one_frame_file) by by_run.
  assert (Ho : fst (@is_open Script B st) = Return true) by by_run.
  assert (Hn : _batch_size (self st) = Some 3) by by_run.
  assert (Hh : _height (self st) = Some 2) by by_run.
  assert (Hw : _width (self st) = Some 2) by by_run.
  assert (Hd : _dynamic_batch (self st) = false) by by_run.
  assert (Hf : forallb (fits 2 2)
                 (@next_frames Script B (Z.to_nat 3) one_frame_file) = true)
    by by_run.
  assert (Ok : @np_zeros_ok machine 3 2 2 = true) by by_run.
  assert (Hs5 : _video_stream (self st5) = Some one_frame_file) by by_run.
  assert (Ho5 : fst (@is_open Script B st5) = Return true) by by_run.
  assert (Hn5 : _batch_size (self st5) = Some 2) by by_run.
  assert (Hh5 : _height (self st5) = Some 5) by by_run.
  assert (Hw5 : _width (self st5) = Some 5) by by_run.
  assert (Hd5 : _dynamic_batch (self st5) = false) by by_run.
  assert (Hf5 : forallb (fits 5 5)
                  (@next_frames Script B (Z.to_nat 2) one_frame_file) = false)
    by by_run.
  assert (Ok5 : @np_zeros_ok machine 2 5 5 = true) by by_run.
  split.
  - destruct (proj1 (@padded_batch Script B machine st one_frame_file 3 2 2
                       Hs Ho Hn Hh Hw Ok Hd) Hf)
      as [b [st' [E [S [_ [Sl _]]]]]].
    exists b, st'. split; [exact E|]. split; [exact S|]. rewrite Sl.
    by_run.
  - exact (proj2 (@padded_batch Script B machine st5 one_frame_file 2 5 5
                    Hs5 Ho5 Hn5 Hh5 Hw5 Ok5 Hd5) Hf5).
Defined.

(** C3 (what the claim says fails).  The same reader with dynamic batching
    on: it is open, and its [read_batch] raises ValueError and returns no
    buffer. *)
Lemma dynamic_batch_unfit_frame :
  let B := Scripted (always one_frame_file) in
  let st := snd (@construct Script B (PStr "clip.mp4") (Some 2) true
                   (Some 5) (Some 5)) in
  fst (@construct Script B (PStr "clip.mp4") (Some 2) true (Some 5) (Some 5))
    = Return tt /\
  fst (@is_open Script B st) = Return true /\
  _dynamic_batch (self st) = true /\
  fst (@read_batch Script B machine st) = Raise ValueError.
Proof. vm_compute. repeat split. Qed.

(** C3 (amended), at a file of one frame read with a batch size of 3 and
    dynamic batching, and at a reader whose slots are 5 by 5 while the
    frames are 2 by 2. *)
Lemma dynamic_batch_length_witness :
  let B := Scripted (always one_frame_file) in
  let st5 := snd (@construct Script B (PStr "clip.mp4") (Some 2) true
                    (Some 5) (Some 5)) in
  (exists b st',
     @read_batch Script B machine
       (sample_reader one_frame_file (Some 3) true)
       = (Return (Some b), st') /\
     b_slots b = [Wrote (sample_frame 1)] /\
     np_len b = 1) /\
  (exists st', @read_batch Script B machine st5 = (Raise ValueError, st')).
Proof.
  intros B st5.
  set (st := sample_reader one_frame_file (Some 3) true).
  assert (Hs : _video_stream (self st) = Some one_frame_file) by by_run.
  assert (Ho : fst (@is_open Script B st) = Return true) by by_run.
  assert (Hn : _batch_size (self st) = Some 3) by by_run.
  assert (Hh : _height (self st) = Some 2) by by_run.
  assert (Hw : _width (self st) = Some 2) by by_run.
  assert (Hd : _dynamic_batch (self st) = true) by by_run.
  assert (Hf : forallb (fits 2 2)
                 (@next_frames Script B (Z.to_nat 3) one_frame_file) = true)
    by by_run.
  assert (Ok : @np_zeros_ok machine 3 2 2 = true) by by_run.
  assert (Hs5 : _video_stream (self st5) = Some one_frame_file) by by_run.
  assert (Ho5 : fst (@is_open Script B st5) = Return true) by by_run.
  assert (Hn5 : _batch_size (self st5) = Some 2) by by_run.
  assert (Hh5 : _height (self st5) = Some 5) by by_run.
  assert (Hw5 : _width (self st5) = Some 5) by by_run.
  assert (Hd5 : _dynamic_batch (self st5) = true) by by_run.
  assert (Hf5 : forallb (fits 5 5)
                  (@next_frames Script B (Z.to_nat 2) one_frame_file) = false)
    by by_run.
  assert (Ok5 : @np_zeros_ok machine 2 5 5 = true) by by_run.
  split.
  - destruct (proj1 (@dynamic_batch_length Script B machine st
                       one_frame_file 3 2 2 Hs Ho Hn ltac:(lia) Hh Hw Ok Hd)
                Hf)
      as [b [st' [E [Sl [L _]]]]].
    exists b, st'. split; [exact E|]. rewrite L, Sl. split; by_run.
  - exact (proj2 (@dynamic_batch_length Script B machine st5
                    one_frame_file 2 5 5 Hs5 Ho5 Hn5 ltac:(lia) Hh5 Hw5 Ok5
                    Hd5) Hf5).
Defined.

(** C10, at an empty file read with dynamic batching. *)
Lemma empty_batch_before_end_witness :
  exists st1 st2,
    @__next__ Script (Scripted (always empty_file)) machine
      (sample_reader empty_file (Some 2) true)
      = (Return (VBatch (mkBatch 2 2 [])), st1) /\
    @__next__ Script (Scripted (always empty_file)) machine st1
      = (Raise StopIteration, st2).
Proof.
  set (st := sample_reader empty_file (Some 2) true).
  assert (Hs : _video_stream (self st) = Some empty_file) by by_run.
  assert (Ho : fst (@is_open Script (Scripted (always empty_file)) st)
               = Return true) by by_run.
  assert (Hn : _batch_size (self st) = Some 2) by by_run.
  assert (Hh : _height (self st) = Some 2) by by_run.
  assert (Hw : _width (self st) = Some 2) by by_run.
  assert (Hd : _dynamic_batch (self st) = true) by by_run.
  assert (Hr : fst (@cap_read Script (Scripted (always empty_file))
                      empty_file) = (false, None)) by by_run.
  assert (Ok : @np_zeros_ok machine 2 2 2 = true) by by_run.
  destruct (@empty_batch_before_end Script (Scripted (always empty_file))
              machine st empty_file 2 2 2 Hs Ho Hn ltac:(lia) Hh Hw Ok Hd Hr)
    as [st1 [st2 [_ [_ [_ [N1 [N2 _]]]]]]].
  exists st1, st2. split; [exact N1 | exact N2].
Defined.

(** C6, at a file of one frame: the first [read_frame] returns the frame and
    the counter is 1, the second returns the absent value and it stays 1. *)
Lemma frame_count_counts_frames_witness :
  let B := Scripted (always one_frame_file) in
  let r1 := @read_frame Script B (sample_reader one_frame_file None false) in
  let r2 := @read_frame Script B (snd r1) in
  fst r1 = Return (Some (sample_frame 1)) /\
  _frame_count (self (snd r1)) = 1 /\
  fst r2 = Return None /\
  _frame_count (self (snd r2)) = 1 /\
  _frame_count
    (self (snd (@__init__ Script B (PStr "clip.mp4") None false None None
                  (snd r2)))) = 0.
Proof.
  intros B r1 r2.
  destruct (@frame_count_counts_frames Script B machine)
    as [Init [Zero [Inc [Same _]]]].
  assert (E1 : @read_frame Script B (sample_reader one_frame_file None false)
               = (Return (Some (sample_frame 1)), snd r1)) by by_run.
  assert (E2 : @read_frame Script B (snd r1) = (Return None, snd r2))
    by by_run.
  pose proof (Inc _ _ _ E1) as I1. pose proof (Same _ _ E2) as I2.
  assert (F0 : _frame_count (self (sample_reader one_frame_file None false))
               = 0) by (apply Zero).
  split; [by_run|]. split; [lia|]. split; [by_run|]. split; [lia|].
  apply Init.
Defined.



(** C4 (what the claim says fails).  On a handle whose [release] raises, the
    reader is constructed and its [release] raises the backend's
    exception. *)
Lemma release_failure_propagates :
  fst (@construct Script (Scripted (always stuck_handle)) (PStr "clip.mp4")
         None false None None) = Return tt /\
  fst (@release Script (Scripted (always stuck_handle))
         (sample_reader stuck_handle None false))
    = Raise (BackendError 1).
Proof. vm_compute. split; reflexivity. Qed.

(** C4 (amended), at a reader whose construction failed at the extension
    test, at an open reader on a backend whose [release] does not raise, and
    at one whose [release] raises. *)
Lemma release_follows_backend_witness :
  fst (@times Script 3 (@release Script (Scripted (always one_frame_file)))
         (snd (@construct Script (Scripted (always one_frame_file))
                 (PStr "notes.txt") None false None None)))
    = Return tt /\
  fst (@release Script (Scripted (always one_frame_file))
         (sample_reader one_frame_file None false)) = Return tt /\
  fst (@release Script (Scripted (always stuck_handle))
         (sample_reader stuck_handle None false)) = Raise (BackendError 1).
Proof.
  split; [|split].
  - destruct (@release_follows_backend Script
                (Scripted (always one_frame_file))
                (sample_reader one_frame_file None false))
      as [_ [_ [Failed _]]].
    assert (E : fst (@construct Script (Scripted (always one_frame_file))
                       (PStr "notes.txt") None false None None)
                = Raise (InvalidFileExtension "notes.txt")) by by_run.
    rewrite (Failed (PStr "notes.txt") None false None None 3%nat
               (or_intror (ex_intro _ "notes.txt" E))).
    reflexivity.
  - assert (Hs : _video_stream
                   (self (sample_reader one_frame_file None false))
                 = Some one_frame_file) by by_run.
    destruct (@release_follows_backend Script
                (Scripted (always one_frame_file))
                (sample_reader one_frame_file None false))
      as [_ [Follows _]].
    rewrite (Follows one_frame_file Hs). by_run.
  - assert (Hs : _video_stream
                   (self (sample_reader stuck_handle None false))
                 = Some stuck_handle) by by_run.
    destruct (@release_follows_backend Script
                (Scripted (always stuck_handle))
                (sample_reader stuck_handle None false))
      as [_ [Follows _]].
    rewrite (Follows stuck_handle Hs). by_run.
Defined.

(** * Further properties *)

(** ** What construction leaves behind *)

Section ConstructionState.

Context {H : Type} {B : Backend H}.

(** The state a successful construction ends in is determined by the
    arguments and the backend. *)
Lemma construct_success (p : string) bs dyn (w h : option Z) (st : State H) :
  construct (PStr p) bs dyn w h = (Return tt, st) ->
  let hf := handle_after_sizes w h (VideoCapture (Filename p)) in
  exists wv hv,
    st =
    mkState
      (mkVideoReader (Some p) (Some wv) (Some hv) (isOpened hf)
         (Some (mkInfo (Some p) (Some wv) (Some hv)
                  (cap_get CAP_PROP_FPS hf)))
         (Some hf) (cap_get CAP_PROP_FPS hf) 0 0 0 bs dyn (Some p))
      [COpen (Filename p); CIsOpened;
       size_call CAP_PROP_FRAME_WIDTH w; size_call CAP_PROP_FRAME_HEIGHT h;
       CGet CAP_PROP_FPS; CIsOpened].
Proof.
  intros C. destruct (construct_returns _ _ _ _ _ _ C) as [q [Q [E O]]].
  injection Q as <-. rewrite (construct_accepted p _ _ _ _ E) in C.
  unfold _post_init, is_open, stream_isOpened, stream_get, stream_set,
    with_stream, bind, ret, raise, lift, attr, assign, record_call in C.
  cbn in C. rewrite O in C. cbn in C.
  destruct w as [w0|], h as [h0|]; cbn in C.
  all: repeat match type of C with
       | context [int_of_float ?x] =>
           destruct (int_of_float x) eqn:?; cbn in C
       end; try discriminate.
  all: injection C as <-; cbn; eexists; eexists; reflexivity.
Qed.

(** The backend calls of a successful construction, in order: open by file
    name, [isOpened], the width ([set] when requested, [get] otherwise), the
    height likewise, [get] of the frame rate, [isOpened] again. *)
Theorem construction_calls
    (path : Descriptor) bs dyn (w h : option Z) (st : State H) :
  construct path bs dyn w h = (Return tt, st) ->
  exists p,
    path = PStr p /\
    calls st =
    [COpen (Filename p); CIsOpened;
     size_call CAP_PROP_FRAME_WIDTH w; size_call CAP_PROP_FRAME_HEIGHT h;
     CGet CAP_PROP_FPS; CIsOpened].
Proof.
  intros C. destruct (construct_returns _ _ _ _ _ _ C) as [p [-> _]].
  exists p. split; [reflexivity|].
  destruct (construct_success p _ _ _ _ _ C) as [wv [hv ->]]. reflexivity.
Qed.

(** Construction, however it ends, reads no frame and never releases the
    handle it opened.  Once the backend was opened the handle stays stored,
    also when construction raises afterwards: it is the handle the backend
    returned, with the size requests made so far applied to it.  When no
    backend call was made, no handle is stored. *)
Theorem construction_reads_and_releases_nothing
    (path : Descriptor) bs dyn (w h : option Z) :
  let st := snd (construct path bs dyn w h) in
  existsb reads_or_releases (calls st) = false /\
  (forall src, In (COpen src) (calls st) ->
     exists w' h',
       (w' = w \/ w' = None) /\ (h' = h \/ h' = None) /\
       _video_stream (self st)
         = Some (handle_after_sizes w' h' (VideoCapture src))) /\
  (calls st = [] -> _video_stream (self st) = None).
Proof.
  cbv zeta. split; [|split].
  - destruct path as [p|n]; [|reflexivity].
    destruct (in_EXTENSIONS (extension_of p)) eqn:E.
    2:{ rewrite (construct_rejected p _ _ _ _ E). reflexivity. }
    rewrite (construct_accepted p _ _ _ _ E).
    unfold _post_init, is_open, stream_isOpened, stream_get, stream_set,
      with_stream, bind, ret, raise, lift, attr, assign, record_call.
    cbn. destruct (isOpened (VideoCapture (Filename p))); cbn; [|reflexivity].
    destruct w, h; cbn;
      repeat match goal with
             | |- context [int_of_float ?x] => destruct x; cbn
             end; reflexivity.
  - intros src I.
    destruct (open_is_always_by_name _ _ _ _ _ _ I) as [p [-> ->]].
    destruct (in_EXTENSIONS (extension_of p)) eqn:E.
    2:{ rewrite (construct_rejected p _ _ _ _ E) in I. destruct I. }
    clear I. rewrite (construct_accepted p _ _ _ _ E).
    unfold _post_init, is_open, stream_isOpened, stream_get, stream_set,
      with_stream, bind, ret, raise, lift, attr, assign, record_call,
      handle_after_sizes.
    cbn. destruct (isOpened (VideoCapture (Filename p))); cbn;
      [|exists None, None; auto].
    destruct w as [w0|], h as [h0|]; cbn;
      repeat match goal with
             | |- context [int_of_float ?x] => destruct x; cbn
             end;
      match goal with
      | |- exists w' h', (w' = ?a \/ _) /\ (h' = ?b \/ _) /\ _ =>
          first
            [ exists a, b; split; [auto|]; split; [auto|]; reflexivity
            | exists a, None; split; [auto|]; split; [auto|]; reflexivity
            | exists None, None; split; [auto|]; split; [auto|]; reflexivity ]
      end.
  - intros C. destruct path as [p|n]; [|reflexivity].
    destruct (in_EXTENSIONS (extension_of p)) eqn:E.
    + exfalso. rewrite (construct_accepted p _ _ _ _ E) in C.
      destruct (post_init_shape
                  (mkState (mkVideoReader (Some p) w h true None
                              (Some (VideoCapture (Filename p)))
                              (Finite (10 # 1)) 0 0 0 bs dyn (Some p))
                     [COpen (Filename p)])) as [rest [K _]].
      rewrite K in C. discriminate C.
    + rewrite (construct_rejected p _ _ _ _ E). reflexivity.
Qed.

(** After a successful construction: name and title are the path; the batch
    configuration is the arguments; the frame rate is the backend's, read
    after the size requests; the open flag is what the handle reports then;
    and [info] is the snapshot of name, width, height and frame rate. *)
Theorem construction_snapshot
    (path : Descriptor) bs dyn (w h : option Z) (st : State H) :
  construct path bs dyn w h = (Return tt, st) ->
  exists p,
    path = PStr p /\
    let hf := handle_after_sizes w h (VideoCapture (Filename p)) in
    fst (name st) = Return (Some p) /\
    fst (video_title st) = Return p /\
    _batch_size (self st) = bs /\
    _dynamic_batch (self st) = dyn /\
    _video_stream (self st) = Some hf /\
    fst (fps st) = Return (cap_get CAP_PROP_FPS hf) /\
    fst (is_open st) = Return (isOpened hf) /\
    fst (info st) =
      Return (Some (mkInfo (_name (self st)) (_width (self st))
                      (_height (self st)) (_fps (self st)))).
Proof.
  intros C. destruct (construct_returns _ _ _ _ _ _ C) as [p [-> _]].
  exists p. split; [reflexivity|].
  destruct (construct_success p _ _ _ _ _ C) as [wv [hv ->]].
  cbn. repeat split.
  unfold is_open, stream_isOpened, with_stream, bind, attr, record_call, ret.
  cbn. destruct (isOpened _); reflexivity.
Qed.

(** The ways construction can end.  It raises TypeError exactly for an
    [int]; the extension error only for a string with an unsupported
    extension; the failed-to-read error only when the handle reports
    not-open; ValueError only when a size was left to the backend and the
    value it reported for it is a NaN, and OverflowError only when that
    value is an infinity (the height is asked of the handle after the width
    request, if any); and nothing else. *)
Theorem construction_outcomes (path : Descriptor) bs dyn (w h : option Z) :
  let unsized (bad : pyfloat) (p : string) :=
    (w = None /\
     cap_get CAP_PROP_FRAME_WIDTH (VideoCapture (Filename p)) = bad) \/
    (h = None /\
     cap_get CAP_PROP_FRAME_HEIGHT
       (handle_after_sizes w None (VideoCapture (Filename p))) = bad) in
  match fst (construct path bs dyn w h) with
  | Return _ =>
      exists p, path = PStr p /\ in_EXTENSIONS (extension_of p) = true /\
                isOpened (VideoCapture (Filename p)) = true
  | Raise TypeError => exists n, path = PInt n
  | Raise (InvalidFileExtension x) =>
      path = PStr x /\ in_EXTENSIONS (extension_of x) = false
  | Raise (FailedToReadFrom nm) =>
      exists p, path = PStr p /\ nm = Some p /\
                isOpened (VideoCapture (Filename p)) = false
  | Raise ValueError =>
      (w = None \/ h = None) /\
      exists p, path = PStr p /\
                isOpened (VideoCapture (Filename p)) = true /\
                unsized NaN p
  | Raise OverflowError =>
      (w = None \/ h = None) /\
      exists p, path = PStr p /\
                isOpened (VideoCapture (Filename p)) = true /\
                unsized Infinite p
  | Raise _ => False
  end.
Proof.
  cbv zeta. destruct path as [p|n]; [|cbn; eauto].
  destruct (in_EXTENSIONS (extension_of p)) eqn:E.
  2:{ rewrite (construct_rejected p _ _ _ _ E). cbn. auto. }
  rewrite (construct_accepted p _ _ _ _ E).
  unfold _post_init, is_open, stream_isOpened, stream_get, stream_set,
    with_stream, bind, ret, raise, lift, attr, assign, record_call,
    handle_after_sizes.
  cbn. destruct (isOpened (VideoCapture (Filename p))) eqn:O; cbn;
    [|eauto].
  destruct w, h; cbn;
    repeat match goal with
           | |- context [int_of_float ?x] => destruct x eqn:?; cbn
           end; eauto 10.
Qed.

End ConstructionState.

(** ** The configuration never changes *)

Section Configuration.

Context {H : Type} {B : Backend H} {Np : Numpy}.

Lemma kc_ret {A : Type} (a : A) : keeps_config (ret (H := H) a).
Proof. intros st. reflexivity. Qed.

Lemma kc_raise {A : Type} (e : PyErr) :
  keeps_config (raise (H := H) (A := A) e).
Proof. intros st. reflexivity. Qed.

Lemma kc_lift {A : Type} (o : Outcome A) : keeps_config (lift (H := H) o).
Proof. intros st. reflexivity. Qed.

Lemma kc_attr {A : Type} (f : VideoReader H -> A) : keeps_config (attr f).
Proof. intros st. reflexivity. Qed.

Lemma kc_record_call (c : Call) : keeps_config (record_call (H := H) c).
Proof. intros st. reflexivity. Qed.

Lemma kc_assign (f : VideoReader H -> VideoReader H) :
  (forall o, config_of (f o) = config_of o) -> keeps_config (assign f).
Proof. intros Hf st. cbn. apply Hf. Qed.

Lemma kc_bind {A C : Type} (m : M H A) (k : A -> M H C) :
  keeps_config m -> (forall a, keeps_config (k a)) ->
  keeps_config (bind m k).
Proof.
  intros Hm Hk st. unfold bind. specialize (Hm st).
  destruct (m st) as [[e|a] st1]; cbn in *; [exact Hm|].
  rewrite (Hk a st1). exact Hm.
Qed.

Create HintDb config.

#[local] Hint Resolve kc_ret kc_raise kc_lift kc_attr kc_record_call
  : config.

Ltac kc_step :=
  first
    [ solve [auto with config]
    | apply kc_bind; [|intros ?]
    | apply kc_assign; intros ?; reflexivity
    | match goal with
      | |- keeps_config (match ?x with _ => _ end) => destruct x
      end ].

Ltac kc := repeat kc_step.

Lemma kc_is_open : keeps_config is_open.
Proof. unfold is_open, stream_isOpened. kc. Qed.

Lemma kc_read_frame : keeps_config read_frame.
Proof. unfold read_frame, stream_read. kc. Qed.

#[local] Hint Resolve kc_is_open kc_read_frame : config.

Lemma kc_fill_batch (todo : list Z) :
  forall i batch, keeps_config (fill_batch todo i batch).
Proof.
  induction todo as [|j rest IH]; intros i batch; cbn [fill_batch]; kc.
Qed.

Lemma kc_read_batch : keeps_config read_batch.
Proof. unfold read_batch, height, width. kc; apply kc_fill_batch. Qed.

#[local] Hint Resolve kc_read_batch : config.

Lemma kc_read : keeps_config read.
Proof. unfold read. kc. Qed.

Lemma kc_release : keeps_config release.
Proof. unfold release, stream_release. kc. Qed.

#[local] Hint Resolve kc_read kc_release : config.

Lemma kc_do_read (r : ReadCall) : keeps_config (do_read r).
Proof.
  destruct r; cbn [do_read]; kc.
  intros st. assert (N : keeps_config __next__) by (unfold __next__; kc).
  specialize (N st). destruct (__next__ st) as [[[]|v] st1]; exact N.
Qed.

Lemma kc_run_op (op : Op) : keeps_config (run_op op).
Proof.
  destruct op; cbn [run_op]; unfold show, video_title, __del__, __exit__; kc.
  apply kc_do_read.
Qed.

(** No operation of the adapter, returning or raising, and no sequence of
    operations, changes the name, the width, the height, the frame rate, the
    [info] snapshot, the title or the batch configuration: after
    construction they are read-only. *)
Theorem configuration_is_stable (ops : list Op) (st : State H) :
  config_of (self (run_ops ops st)) = config_of (self st).
Proof.
  revert st. induction ops as [|op rest IH]; intros st; cbn [run_ops];
    [reflexivity|].
  rewrite IH. apply kc_run_op.
Qed.

End Configuration.

(** ** What a batch read does to the handle *)

Lemma frames_of_written (rows cols : Z) (fs : list Frame) (k : nat) :
  frames_of (mkBatch rows cols (map Wrote fs ++ repeat Zeros k)%list) = fs.
Proof.
  unfold frames_of. cbn [b_slots]. rewrite flat_map_app.
  replace (flat_map (fun s => match s with Wrote f => [f] | Zeros => [] end)
             (repeat Zeros k)) with (@nil Frame)
    by (induction k; cbn; auto).
  rewrite app_nil_r. induction fs as [|f fs IH]; cbn; [reflexivity|].
  now rewrite IH.
Qed.

Section BatchEffect.

Context {H : Type} {B : Backend H} {Np : Numpy}.

Lemma reads_used_spec (n : nat) (h : H) :
  reads_used n h =
  if (List.length (next_frames n h) <? n)%nat
  then S (List.length (next_frames n h)) else n.
Proof.
  revert h. induction n as [|n IH]; intros h; [reflexivity|].
  cbn [reads_used next_frames].
  destruct (snd (fst (cap_read h))); [|reflexivity].
  cbn [List.length]. rewrite IH.
  change (S (List.length (next_frames n (snd (cap_read h)))) <? S n)%nat
    with (List.length (next_frames n (snd (cap_read h))) <? n)%nat.
  destruct (List.length (next_frames n (snd (cap_read h))) <? n)%nat;
    reflexivity.
Qed.

Lemma after_reads_add (a b : nat) (h : H) :
  after_reads (a + b) h = after_reads b (after_reads a h).
Proof.
  revert h. induction a as [|a IH]; intros h; [reflexivity|].
  cbn [Nat.add after_reads]. apply IH.
Qed.

(** The frames of [a + b] reads are those of the first [a] reads followed by
    those of the next [b], when the first [a] reads all deliver a frame. *)
Lemma next_frames_add (a b : nat) (h : H) :
  List.length (next_frames a h) = a ->
  next_frames (a + b) h =
  (next_frames a h ++ next_frames b (after_reads a h))%list.
Proof.
  revert h. induction a as [|a IH]; intros h L; [reflexivity|].
  cbn [Nat.add next_frames after_reads] in *.
  destruct (snd (fst (cap_read h))); [|discriminate].
  cbn [List.length] in L. cbn [app]. f_equal. apply IH. lia.
Qed.

(** The loop of [read_batch], when it returns: where it leaves the handle,
    the flag and the call log. *)
Lemma fill_batch_effect (m : nat) :
  forall (pre : list Slot) (i : option Z) (rows cols : Z)
         (st : State H) (h : H) r st',
  _video_stream (self st) = Some h ->
  fill_batch (map Z.of_nat (seq (List.length pre) m)) i
    (mkBatch rows cols (pre ++ repeat Zeros m)%list) st = (Return r, st') ->
  _video_stream (self st') = Some (after_reads (reads_used m h) h) /\
  _is_open (self st') = last_flag m h (_is_open (self st)) /\
  calls st' = (calls st ++ repeat CRead (reads_used m h))%list.
Proof.
  induction m as [|m IH]; intros pre i rows cols st h r st' Hs E.
  - cbn in E. injection E as _ <-. cbn. rewrite app_nil_r. auto.
  - cbn [seq map fill_batch] in E. unfold bind at 1 in E.
    rewrite (read_frame_eq st h Hs) in E.
    cbn [reads_used last_flag after_reads].
    destruct (cap_read h) as [[flag [f|]] h'] eqn:R; cbn [fst snd] in *.
    + unfold bind at 1, lift at 1 in E. rewrite np_setitem_next in E.
      destruct (fits rows cols f); [|discriminate].
      replace (S (List.length pre))
        with (List.length (pre ++ [Wrote f])%list) in E
        by (rewrite length_app; cbn; lia).
      eapply IH in E; [|reflexivity].
      destruct E as [E1 [E2 E3]]. cbn [after_reads]. rewrite R. cbn [snd].
      split; [exact E1|]. split; [exact E2|].
      rewrite E3. cbn [calls repeat]. rewrite <- app_assoc. reflexivity.
    + injection E as _ <-. cbn. rewrite R. auto.
Qed.

(** What a [read_batch] that returns a batch read and left behind. *)
Lemma read_batch_leaves (st : State H) (b : Batch) (st' : State H) :
  read_batch st = (Return (Some b), st') ->
  exists h n,
    _video_stream (self st) = Some h /\
    _batch_size (self st) = Some (Z.of_nat n) /\
    frames_of b = next_frames n h /\
    let used :=
      if (List.length (frames_of b) <? n)%nat
      then S (List.length (frames_of b)) else n in
    calls st' = (calls st ++ CIsOpened :: repeat CRead used)%list /\
    _video_stream (self st') = Some (after_reads used h) /\
    _is_open (self st') = last_flag n h true.
Proof.
  intros E.
  destruct (read_batch_returned st b st' E)
    as [h [n [hh [ww [Hs [Ho [Hn [Hh [Hw [Ok Hf]]]]]]]]]].
  destruct (np_zeros_ok_nonneg n hh ww Ok) as [Pn _].
  exists h, (Z.to_nat n). rewrite Z2Nat.id by exact Pn.
  split; [exact Hs|]. split; [exact Hn|].
  destruct (read_batch_open st h n hh ww Hs Ho Hn Hh Hw Ok Hf)
    as [st'' [E' _]].
  assert (Fr : frames_of b = next_frames (Z.to_nat n) h).
  { rewrite E in E'. destruct (_dynamic_batch (self st)).
    - destruct (Z.to_nat n); [discriminate|]. injection E' as -> _.
      rewrite <- (app_nil_r (map Wrote _)).
      apply (frames_of_written hh ww _ 0).
    - injection E' as -> _. apply frames_of_written. }
  split; [exact Fr|]. rewrite Fr, <- reads_used_spec.
  pose proof E as E0. unfold read_batch in E0. unfold bind at 1 in E0.
  rewrite (is_open_eq st h Hs), Ho in E0. cbn [negb] in E0.
  unfold height, width, attr, bind at 1 2 3 in E0. cbn [self] in E0.
  rewrite Hn, Hh, Hw in E0. unfold bind at 1, lift at 1 in E0.
  rewrite (np_zeros_returns n hh ww Ok) in E0.
  unfold bind at 1 in E0. unfold py_range in E0.
  destruct (fill_batch (map Z.of_nat (seq 0 (Z.to_nat n))) None
              (mkBatch hh ww (repeat Zeros (Z.to_nat n)))
              (mkState (self st) (calls st ++ [CIsOpened])))
    as [[e|r] st1] eqn:F; [discriminate|].
  destruct (fill_batch_effect (Z.to_nat n) [] None hh ww
              (mkState (self st) (calls st ++ [CIsOpened])) h r st1 Hs F)
    as [S1 [O1 C1]].
  assert (St : st' = st1).
  { unfold bind, attr, ret, raise in E0. cbn [fst snd] in E0.
    destruct (_dynamic_batch (self st1)).
    - destruct (fst r); [|discriminate]. injection E0 as _ <-. reflexivity.
    - injection E0 as _ <-. reflexivity. }
  subst st1. split; [|split].
  - rewrite C1. cbn [calls]. rewrite <- app_assoc. reflexivity.
  - exact S1.
  - rewrite O1. cbn [self]. apply andb_true_iff in Ho.
    destruct Ho as [_ ->]. reflexivity.
Qed.

(** A [read_batch] that returns a batch holds the frames the handle
    delivered, made one [isOpened] query followed by one backend read per
    frame, and one more when the batch is short; it leaves the handle where
    those reads left it and the open flag as the last read set it. *)
Theorem read_batch_effect
    (st : State H) (h : H) (n : nat) (b : Batch) (st' : State H) :
  _video_stream (self st) = Some h ->
  _batch_size (self st) = Some (Z.of_nat n) ->
  read_batch st = (Return (Some b), st') ->
  let used :=
    if (List.length (frames_of b) <? n)%nat
    then S (List.length (frames_of b)) else n in
  frames_of b = next_frames n h /\
  (List.length (frames_of b) <= n)%nat /\
  calls st' = (calls st ++ CIsOpened :: repeat CRead used)%list /\
  _video_stream (self st') = Some (after_reads used h) /\
  _is_open (self st') = last_flag n h true.
Proof.
  intros Hs Hn E.
  destruct (read_batch_leaves st b st' E)
    as [h1 [n1 [Hs1 [Hn1 [F [C [S1 O1]]]]]]].
  rewrite Hs in Hs1. injection Hs1 as <-.
  rewrite Hn in Hn1. injection Hn1 as Hn1. apply Nat2Z.inj in Hn1.
  subst n1. cbn zeta.
  split; [exact F|]. split; [rewrite F; apply next_frames_length|].
  split; [exact C|]. split; [exact S1 | exact O1].
Qed.

(** Two batches read one after the other, the first of them full, hold the
    frames of the handle in order: the second starts at the frame after the
    last one of the first, so none is skipped and none is read twice. *)
Theorem consecutive_batches
    (st st1 st2 : State H) (b1 b2 : Batch) (n : nat) :
  read_batch st = (Return (Some b1), st1) ->
  read_batch st1 = (Return (Some b2), st2) ->
  _batch_size (self st) = Some (Z.of_nat n) ->
  List.length (frames_of b1) = n ->
  exists h,
    _video_stream (self st) = Some h /\
    (frames_of b1 ++ frames_of b2)%list = next_frames (n + n) h.
Proof.
  intros E1 E2 Hn Full.
  destruct (read_batch_leaves st b1 st1 E1)
    as [h [n1 [Hs [Hn1 [F1 [_ [S1 _]]]]]]].
  rewrite Hn in Hn1. injection Hn1 as Hn1. apply Nat2Z.inj in Hn1.
  subst n1. rewrite Full, Nat.ltb_irrefl in S1.
  destruct (read_batch_leaves st1 b2 st2 E2)
    as [h1 [n2 [Hs1 [Hn2 [F2 _]]]]].
  rewrite S1 in Hs1. injection Hs1 as <-.
  assert (K : _batch_size (self st1) = _batch_size (self st)).
  { pose proof (kc_read_batch st) as K. rewrite E1 in K. cbn [snd] in K.
    unfold config_of in K. congruence. }
  rewrite K, Hn in Hn2. injection Hn2 as Hn2. apply Nat2Z.inj in Hn2.
  subst n2. exists h. split; [exact Hs|].
  rewrite F1, F2. symmetry. apply next_frames_add. rewrite <- F1. exact Full.
Qed.

Lemma last_flag_short (m : nat) :
  forall (h : H) (flag : bool),
  (forall k, snd (fst (cap_read (after_reads k h))) = None ->
             fst (fst (cap_read (after_reads k h))) = false) ->
  (List.length (next_frames m h) < m)%nat -> last_flag m h flag = false.
Proof.
  induction m as [|m IH]; intros h flag Cons L; [cbn in L; lia|].
  cbn [last_flag next_frames] in *.
  destruct (snd (fst (cap_read h))) eqn:R.
  - cbn [List.length] in L. apply IH; [|lia].
    intros k. exact (Cons (S k)).
  - exact (Cons 0%nat R).
Qed.

(** On a handle that never sets the flag without delivering a frame, a
    batch with fewer frames than the batch size is the last one: it leaves
    the adapter closed, and the next [read_batch] returns the absent value
    without reading from the backend. *)
Theorem short_batch_is_last
    (st st1 : State H) (h : H) (b : Batch) (n : nat) :
  _video_stream (self st) = Some h ->
  (forall k, snd (fst (cap_read (after_reads k h))) = None ->
             fst (fst (cap_read (after_reads k h))) = false) ->
  read_batch st = (Return (Some b), st1) ->
  _batch_size (self st) = Some (Z.of_nat n) ->
  (List.length (frames_of b) < n)%nat ->
  fst (is_open st1) = Return false /\
  read_batch st1
    = (Return None, mkState (self st1) (calls st1 ++ [CIsOpened])).
Proof.
  intros Hs0 Cons E Hn Short.
  destruct (read_batch_leaves st b st1 E)
    as [h1 [n1 [Hs [Hn1 [F [_ [S1 O1]]]]]]].
  rewrite Hs0 in Hs. injection Hs as <-.
  rewrite Hn in Hn1. injection Hn1 as Hn1. apply Nat2Z.inj in Hn1.
  subst n1. rewrite F in Short.
  rewrite (last_flag_short n h true Cons Short) in O1.
  assert (C : closed_on st1 (after_reads
                (if (List.length (frames_of b) <? n)%nat
                 then S (List.length (frames_of b)) else n) h)).
  { split; [exact S1|]. rewrite O1. apply andb_false_r. }
  split.
  - apply (closed_is_open st1 _ S1). exact C.
  - apply (read_batch_closed st1 _ C).
Qed.

End BatchEffect.

(** ** Reading frame by frame, and the edges of [read_batch] *)

Section FrameMode.

Context {H : Type} {B : Backend H} {Np : Numpy}.

Lemma next_in_frame_mode (st : State H) (h : H) :
  _batch_size (self st) = None ->
  _video_stream (self st) = Some h ->
  __next__ st =
  (match snd (fst (cap_read h)) with
   | Some f => Return (VFrame f)
   | None => Raise StopIteration
   end,
   snd (read_frame st)).
Proof.
  intros Hn Hs. unfold __next__, read. unfold bind at 1 2, attr at 1.
  rewrite Hn. unfold bind at 1. rewrite (read_frame_eq st h Hs).
  cbn [fst snd]. destruct (snd (fst (cap_read h))); reflexivity.
Qed.

(** Without a batch size, [k] calls of [__next__] on a handle whose next
    [k] reads deliver a frame return those frames in order, whatever the
    open flag says; the counter grows by [k] and the handle is left after
    [k] reads.  The call after the last frame raises StopIteration. *)
Theorem frame_mode_iteration (k : nat) :
  forall (st : State H) (h : H),
  _batch_size (self st) = None ->
  _video_stream (self st) = Some h ->
  List.length (next_frames k h) = k ->
  exists st',
    do_reads (repeat CallNext k) st =
      (Return (map (fun f => Some (VFrame f)) (next_frames k h)), st') /\
    _frame_count (self st') = _frame_count (self st) + Z.of_nat k /\
    _video_stream (self st') = Some (after_reads k h) /\
    _batch_size (self st') = None /\
    (snd (fst (cap_read (after_reads k h))) = None ->
     fst (__next__ st') = Raise StopIteration).
Proof.
  induction k as [|k IH]; intros st h Hn Hs L.
  - exists st. cbn. split; [reflexivity|]. split; [lia|].
    split; [exact Hs|]. split; [exact Hn|].
    intros R. rewrite (next_in_frame_mode st h Hn Hs), R. reflexivity.
  - cbn [next_frames] in L. cbn [repeat do_reads do_read next_frames].
    destruct (snd (fst (cap_read h))) as [f|] eqn:R; [|discriminate].
    cbn [List.length] in L.
    unfold bind at 1. rewrite (next_in_frame_mode st h Hn Hs), R.
    rewrite (read_frame_eq st h Hs), R. cbn [snd].
    set (st1 := mkState _ _).
    destruct (IH st1 (snd (cap_read h)) Hn eq_refl ltac:(lia))
      as [st' [E [F [S [N Stop]]]]].
    exists st'. unfold bind at 1. rewrite E. cbn [map].
    split; [reflexivity|]. split; [|split; [|split]].
    + rewrite F. cbn. lia.
    + exact S.
    + exact N.
    + exact Stop.
Qed.

(** [read_batch] on an open adapter that cannot make a batch: without a
    batch size it raises TypeError and with a negative one ValueError,
    whatever the height and width are; with batch size 0, a height and a
    width with which numpy makes the array of no slots, and dynamic batching
    it raises UnboundLocalError (the loop variable was never bound), and
    without dynamic batching it returns an empty batch.  In all four cases
    the backend is not read and the object is left as it was, so with batch
    size 0 the adapter never closes. *)
Theorem read_batch_without_slots (st : State H) (h : H) (hh ww : Z) :
  _video_stream (self st) = Some h ->
  fst (is_open st) = Return true ->
  _height (self st) = Some hh ->
  _width (self st) = Some ww ->
  let st' := mkState (self st) (calls st ++ [CIsOpened]) in
  (_batch_size (self st) = None ->
   read_batch st = (Raise TypeError, st')) /\
  (forall n, _batch_size (self st) = Some n -> n < 0 ->
   read_batch st = (Raise ValueError, st')) /\
  (_batch_size (self st) = Some 0 -> np_zeros_ok 0 hh ww = true ->
   _dynamic_batch (self st) = true ->
   read_batch st = (Raise UnboundLocalError, st')) /\
  (_batch_size (self st) = Some 0 -> np_zeros_ok 0 hh ww = true ->
   _dynamic_batch (self st) = false ->
   read_batch st = (Return (Some (mkBatch hh ww [])), st') /\
   fst (is_open st') = Return true).
Proof.
  intros Hs Ho Hh Hw st'.
  pose proof (is_open_true st h Hs Ho) as Ho'.
  assert (Start : forall n,
            _batch_size (self st) = n ->
            read_batch st =
            bind (lift (np_zeros n (Some hh) (Some ww)))
              (fun batch =>
                 bind (fill_batch
                         (match n with Some n => py_range n | None => [] end)
                         None batch)
                   (fun r =>
                      bind (attr _dynamic_batch)
                        (fun d =>
                           if d then
                             match fst r with
                             | Some i =>
                                 ret (Some (np_slice_to (snd r) (i + 1)))
                             | None => raise UnboundLocalError
                             end
                           else ret (Some (snd r))))) st').
  { intros n Hn. unfold read_batch. unfold bind at 1.
    rewrite (is_open_eq st h Hs), Ho'. cbn [negb].
    unfold height, width, attr at 1 2 3, bind at 1 2 3. cbn [self].
    rewrite Hn, Hh, Hw. reflexivity. }
  split; [|split; [|split]].
  - intros Hn. rewrite (Start None Hn). reflexivity.
  - intros n Hn Neg. rewrite (Start (Some n) Hn).
    unfold bind at 1, lift, np_zeros.
    destruct (fits_intp n); [|reflexivity].
    destruct (fits_intp hh); [|reflexivity].
    destruct (fits_intp ww); [|reflexivity]. cbn [negb].
    destruct (Z.ltb_spec n 0) as [_|L]; [reflexivity | lia].
  - intros Hn Ok Hd. rewrite (Start (Some 0) Hn).
    unfold bind at 1, lift at 1. rewrite (np_zeros_returns 0 hh ww Ok).
    unfold bind, attr, ret, raise. cbn. rewrite Hd. reflexivity.
  - intros Hn Ok Hd. split.
    + rewrite (Start (Some 0) Hn).
      unfold bind at 1, lift at 1. rewrite (np_zeros_returns 0 hh ww Ok).
      unfold bind, attr, ret, raise. cbn. rewrite Hd. reflexivity.
    + rewrite (is_open_eq st' h Hs). cbn [self st']. rewrite Ho'.
      reflexivity.
Qed.

(** A frame that cannot be written into the batch is lost: when numpy can
    make the batch of [n >= 1] slots and the first frame of the batch does
    not fit the height and width of the adapter, [read_batch] raises
    ValueError after the backend has moved on and the counter has counted
    the frame. *)
Theorem unfit_frame_is_lost
    (st : State H) (h : H) (n hh ww : Z) (f : Frame) :
  _video_stream (self st) = Some h ->
  fst (is_open st) = Return true ->
  _batch_size (self st) = Some n -> 1 <= n ->
  _height (self st) = Some hh ->
  _width (self st) = Some ww ->
  np_zeros_ok n hh ww = true ->
  snd (fst (cap_read h)) = Some f ->
  fits hh ww f = false ->
  exists st',
    read_batch st = (Raise ValueError, st') /\
    _frame_count (self st') = _frame_count (self st) + 1 /\
    _video_stream (self st') = Some (snd (cap_read h)) /\
    calls st' = (calls st ++ [CIsOpened; CRead])%list.
Proof.
  intros Hs Ho Hn Pn Hh Hw Ok R Unfit.
  pose proof (is_open_true st h Hs Ho) as Ho'.
  eexists. unfold read_batch. unfold bind at 1.
  rewrite (is_open_eq st h Hs), Ho'. cbn [negb].
  unfold height, width, attr at 1 2 3, bind at 1 2 3. cbn [self].
  rewrite Hn, Hh, Hw. unfold bind at 1, lift at 1.
  rewrite (np_zeros_returns n hh ww Ok).
  unfold py_range. destruct (Z.to_nat n) as [|m] eqn:En; [lia|].
  cbn [seq map fill_batch]. unfold bind at 1 2.
  erewrite read_frame_eq by exact Hs. rewrite R.
  unfold bind at 1, lift at 1.
  pose proof (np_setitem_next hh ww [] m f) as Write.
  cbn [app List.length] in Write. rewrite Write, Unfit.
  split; [reflexivity|]. cbn. rewrite <- app_assoc. auto.
Qed.

(** With no handle stored (after a construction that failed before the
    open, or after [__del__]), [release] and [__del__] do nothing, and
    [is_open] and every read raise AttributeError and leave the object as
    it is. *)
Theorem without_a_handle (st : State H) :
  _video_stream (self st) = None ->
  release st = (Return tt, st) /\
  fst (__del__ st) = Return tt /\
  self (snd (__del__ st)) = self st /\
  is_open st = (Raise AttributeError, st) /\
  read_frame st = (Raise AttributeError, st) /\
  read_batch st = (Raise AttributeError, st) /\
  read st = (Raise AttributeError, st) /\
  __next__ st = (Raise AttributeError, st).
Proof.
  intros Hs.
  assert (Rb : read_batch st = (Raise AttributeError, st)).
  { unfold read_batch. unfold bind at 1.
    rewrite (is_open_no_stream st Hs). reflexivity. }
  assert (Rd : read st = (Raise AttributeError, st)).
  { unfold read. unfold bind at 1, attr at 1.
    destruct (_batch_size (self st)); unfold bind.
    - rewrite Rb. reflexivity.
    - rewrite (read_frame_no_stream st Hs). reflexivity. }
  split; [apply release_no_stream, Hs|].
  split; [unfold __del__, bind; rewrite (release_no_stream st Hs);
          reflexivity|].
  split.
  { unfold __del__, bind. rewrite (release_no_stream st Hs). cbn.
    destruct st as [[nm wd ht io inf vs fp fc sec mn bsz dy vt] cs].
    cbn in *. subst vs. reflexivity. }
  split; [apply is_open_no_stream, Hs|].
  split; [apply read_frame_no_stream, Hs|].
  split; [exact Rb|]. split; [exact Rd|].
  unfold __next__, bind. rewrite Rd. reflexivity.
Qed.

(** [__del__] clears the handle exactly when the backend's [release] did
    not raise; when it raised, the exception comes out and the handle stays
    stored. *)
Theorem del_clears_unless_release_raises (st : State H) (h : H) :
  _video_stream (self st) = Some h ->
  match fst (cap_release h) with
  | None =>
      fst (__del__ st) = Return tt /\
      _video_stream (self (snd (__del__ st))) = None
  | Some e =>
      fst (__del__ st) = Raise e /\
      _video_stream (self (snd (__del__ st))) = Some (snd (cap_release h))
  end /\
  calls (snd (__del__ st)) = (calls st ++ [CRelease])%list.
Proof.
  intros Hs. unfold __del__, bind. rewrite (release_eq st h Hs).
  destruct (fst (cap_release h)); cbn; auto.
Qed.

(** After a [release] that closed the handle, the adapter reports closed
    and [read_batch] returns the absent value without reading from the
    backend; [read_frame] still passes the read on to the backend. *)
Theorem released_adapter_is_closed (st : State H) (h : H) :
  _video_stream (self st) = Some h ->
  fst (cap_release h) = None ->
  isOpened (snd (cap_release h)) = false ->
  let st1 := snd (release st) in
  fst (release st) = Return tt /\
  fst (is_open st1) = Return false /\
  read_batch st1
    = (Return None, mkState (self st1) (calls st1 ++ [CIsOpened])) /\
  fst (read_frame st1) = Return (snd (fst (cap_read (snd (cap_release h))))).
Proof.
  intros Hs Ok Cl st1. subst st1. rewrite (release_eq st h Hs), Ok.
  cbn [fst snd]. set (st1 := mkState _ _).
  assert (S1 : _video_stream (self st1) = Some (snd (cap_release h)))
    by reflexivity.
  assert (C : closed_on st1 (snd (cap_release h)))
    by (split; [exact S1 | rewrite Cl; reflexivity]).
  split; [reflexivity|].
  split; [apply (closed_is_open st1 _ S1), C|].
  split; [apply (read_batch_closed st1 _ C)|].
  rewrite (read_frame_eq st1 _ S1). reflexivity.
Qed.

(** [show]: once the frame is displayed, the adapter is released exactly
    when the low byte of the key is the code of 'q' (113), so also for a key
    code with higher bits set, and not when no key was pressed (-1);
    otherwise nothing happens.  When the display raises, nothing is
    released. *)
Theorem show_releases_on_q (st : State H) (title : string) (key : Z) :
  _video_title (self st) = Some title ->
  show false key st =
    (if key mod 256 =? 113 then release st else (Return tt, st)) /\
  show true key st = (Raise CvError, st) /\
  show false (-1) st = (Return tt, st).
Proof.
  intros Ht.
  assert (Mask : Z.land key 255 = key mod 256).
  { change 255 with (Z.ones 8). rewrite Z.land_ones by lia. reflexivity. }
  unfold show, video_title, bind, attr, ret, raise. rewrite Ht.
  rewrite Mask. split; [|split]; [|reflexivity|reflexivity].
  destruct (key mod 256 =? 113); reflexivity.
Qed.

End FrameMode.

(** ** The extension test on paths *)

Module PathFacts.
Import PyStr PyStrFacts.

Lemma lower_char_keeps_dot (c : ascii) :
  Ascii.eqb (lower_char c) "." = Ascii.eqb c ".".
Proof.
  destruct c as [[] [] [] [] [] [] [] []]; vm_compute; reflexivity.
Qed.

Lemma lower_char_keeps_slash (c : ascii) :
  Ascii.eqb (lower_char c) "/" = Ascii.eqb c "/".
Proof.
  destruct c as [[] [] [] [] [] [] [] []]; vm_compute; reflexivity.
Qed.

Lemma lower_char_idempotent (c : ascii) :
  lower_char (lower_char c) = lower_char c.
Proof.
  destruct c as [[] [] [] [] [] [] [] []]; vm_compute; reflexivity.
Qed.

Lemma lower_idempotent (s : string) : lower (lower s) = lower s.
Proof.
  induction s as [|c r IH]; cbn [lower]; [reflexivity|].
  rewrite lower_char_idempotent, IH. reflexivity.
Qed.

(** Lower-casing commutes with splitting on a character it does not
    touch. *)
Lemma split_lower (sep : ascii) (s : string) :
  (forall c, Ascii.eqb (lower_char c) sep = Ascii.eqb c sep) ->
  split sep (lower s) = map lower (split sep s).
Proof.
  intros K. induction s as [|c r IH]; cbn [lower split]; [reflexivity|].
  rewrite K, IH. pose proof (split_nonempty sep r) as Ne.
  destruct (Ascii.eqb c sep); [reflexivity|].
  destruct (split sep r) as [|q qs]; [congruence|]. reflexivity.
Qed.

Lemma last_item_lower (l : list string) :
  last_item (map lower l) = lower (last_item l).
Proof.
  unfold last_item. induction l as [|x [|y l] IH]; cbn in *; auto.
Qed.

Lemma basename_lower (p : string) : basename (lower p) = lower (basename p).
Proof.
  unfold basename.
  rewrite (split_lower "/" p lower_char_keeps_slash). apply last_item_lower.
Qed.

(** The extension test does not look at the case of any letter of the
    path: a path and its lower-case form have the same extension, so one is
    accepted exactly when the other is. *)
Theorem validation_ignores_case (p : string) :
  extension_of (lower p) = extension_of p /\
  in_EXTENSIONS (extension_of (lower p)) = in_EXTENSIONS (extension_of p).
Proof.
  assert (E : extension_of (lower p) = extension_of p).
  { unfold extension_of. rewrite basename_lower.
    rewrite (split_lower "." _ lower_char_keeps_dot), last_item_lower.
    apply lower_idempotent. }
  split; [exact E | rewrite E; reflexivity].
Qed.

Lemma extension_of_in_directory (dir file : string) :
  all_chars (is_not "/") file = true ->
  extension_of (dir ++ String "/" file)%string = extension_of file.
Proof.
  intros F. unfold extension_of, basename.
  rewrite split_app_sep, (split_without_sep "/" file F), last_item_snoc.
  unfold last_item at 2. reflexivity.
Qed.

(** The extension test looks only at the last component of the path: the
    directories, whatever dots they contain, do not matter, and a file is
    accepted in a directory exactly when it is accepted on its own. *)
Theorem validation_ignores_directory (dir file : string) :
  all_chars (is_not "/") file = true ->
  extension_of (dir ++ String "/" file)%string = extension_of file /\
  in_EXTENSIONS (extension_of (dir ++ String "/" file)%string)
    = in_EXTENSIONS (extension_of file).
Proof.
  intros F. pose proof (extension_of_in_directory dir file F) as E.
  split; [exact E|]. rewrite E. reflexivity.
Qed.

(** Paths the extension test always rejects: the empty path, a path that
    ends with a slash, and a path that ends with a dot. *)
Theorem validation_rejects_edge_paths (q : string) :
  in_EXTENSIONS (extension_of "") = false /\
  in_EXTENSIONS (extension_of (q ++ "/")%string) = false /\
  in_EXTENSIONS (extension_of (q ++ ".")%string) = false.
Proof.
  split; [reflexivity|]. split.
  - rewrite (extension_of_in_directory q "" eq_refl). reflexivity.
  - rewrite (extension_of_suffix q "" eq_refl eq_refl). reflexivity.
Qed.

(** A name without a dot is its own extension: a file named like a
    supported extension, in any case, is accepted, in any directory. *)
Theorem dotless_name_is_its_extension (dir file : string) :
  all_chars (is_not ".") file = true ->
  all_chars (is_not "/") file = true ->
  extension_of file = lower file /\
  extension_of (dir ++ String "/" file)%string = lower file.
Proof.
  intros D S.
  assert (E : extension_of file = lower file).
  { unfold extension_of, basename.
    rewrite (split_without_sep "/" file S). unfold last_item at 2.
    cbn [last]. rewrite (split_without_sep "." file D). reflexivity. }
  split; [exact E|]. rewrite (extension_of_in_directory dir file S).
  exact E.
Qed.

End PathFacts.

(** ** Iterating over the reader in batches *)

Section Iteration.

Context {H : Type} {B : Backend H} {Np : Numpy}.

Lemma delivers_opened (k : nat) (h : H) : delivers k h -> isOpened h = true.
Proof. destruct k; intros [O _]; exact O. Qed.

Lemma delivers_length (k : nat) :
  forall h : H, delivers k h -> List.length (next_frames k h) = k.
Proof.
  induction k as [|k IH]; intros h D; [reflexivity|].
  destruct D as [_ [f [R D]]]. cbn [next_frames]. rewrite R. cbn [fst snd].
  cbn [List.length]. rewrite (IH _ D). reflexivity.
Qed.

Lemma delivers_prefix_length (n : nat) :
  forall (k : nat) (h : H),
  delivers (n + k) h -> List.length (next_frames n h) = n.
Proof.
  induction n as [|n IH]; intros k h D; [reflexivity|].
  destruct D as [_ [f [R D]]]. cbn [next_frames]. rewrite R. cbn [fst snd].
  cbn [List.length]. rewrite (IH k _ D). reflexivity.
Qed.

(** Reads past the last frame add nothing. *)
Lemma delivers_stop (k m : nat) :
  forall h : H, delivers k h -> next_frames (k + m) h = next_frames k h.
Proof.
  induction k as [|k IH]; intros h D.
  - destruct D as [_ R]. destruct m; [reflexivity|].
    cbn [Nat.add next_frames]. rewrite R. reflexivity.
  - destruct D as [_ [f [R D]]]. cbn [Nat.add next_frames]. rewrite R.
    cbn [fst snd]. rewrite (IH _ D). reflexivity.
Qed.

Lemma delivers_after (j k : nat) :
  forall h : H, delivers (j + k) h -> delivers k (after_reads j h).
Proof.
  induction j as [|j IH]; intros h D; [exact D|].
  destruct D as [_ [f [R D]]]. cbn [after_reads]. apply IH. exact D.
Qed.

Lemma delivers_last_flag_full (n : nat) :
  forall (k : nat) (h : H) (flag : bool),
  delivers (S n + k) h -> last_flag (S n) h flag = true.
Proof.
  induction n as [|n IH]; intros k h flag D.
  - destruct D as [_ [f [R _]]]. cbn [last_flag]. rewrite R. reflexivity.
  - destruct D as [_ [f [R D]]]. cbn [last_flag]. rewrite R. cbn [fst snd].
    fold (last_flag (S n) (snd (cap_read h)) true). exact (IH k _ true D).
Qed.

Lemma delivers_last_flag_short (k : nat) :
  forall (n : nat) (h : H) (flag : bool),
  delivers k h -> (k < n)%nat -> last_flag n h flag = false.
Proof.
  induction k as [|k IH]; intros n h flag D L.
  - destruct n; [lia|]. destruct D as [_ R]. cbn [last_flag]. rewrite R.
    reflexivity.
  - destruct n; [lia|]. destruct D as [_ [f [R D]]]. cbn [last_flag].
    rewrite R. cbn [fst snd]. apply (IH n _ true D). lia.
Qed.

Lemma next_in_batch_mode (st : State H) (n : Z) :
  _batch_size (self st) = Some n ->
  __next__ st =
  match read_batch st with
  | (Return (Some b), st1) => (Return (VBatch b), st1)
  | (Return None, st1) => (Raise StopIteration, st1)
  | (Raise e, st1) => (Raise e, st1)
  end.
Proof.
  intros Hn. unfold __next__, read. unfold bind at 1 2, attr at 1.
  rewrite Hn. unfold bind at 1.
  destruct (read_batch st) as [[e|[b|]] st1]; reflexivity.
Qed.

(** One step of the iteration on a handle that delivers [k] more frames:
    the batch holds the next [min n k] frames, and the adapter stays open
    exactly when the batch was full. *)
Lemma batch_step (st : State H) (h : H) (n k : nat) (hh ww : Z) :
  _video_stream (self st) = Some h ->
  _is_open (self st) = true ->
  _batch_size (self st) = Some (Z.of_nat n) -> (1 <= n)%nat ->
  _height (self st) = Some hh ->
  _width (self st) = Some ww ->
  np_zeros_ok (Z.of_nat n) hh ww = true ->
  delivers k h ->
  forallb (fits hh ww) (next_frames n h) = true ->
  exists b st1,
    __next__ st = (Return (VBatch b), st1) /\
    frames_of b = next_frames n h /\
    _frame_count (self st1) =
      _frame_count (self st) + Z.of_nat (List.length (next_frames n h)) /\
    config_of (self st1) = config_of (self st) /\
    _video_stream (self st1) =
      Some (after_reads (if (k <? n)%nat then S k else n) h) /\
    _is_open (self st1) = negb (k <? n)%nat.
Proof.
  intros Hs Hf Hn Pn Hh Hw Ok D Fit.
  assert (Ho : isOpened h && _is_open (self st) = true)
    by (rewrite (delivers_opened k h D), Hf; reflexivity).
  assert (Fit' : forallb (fits hh ww) (next_frames (Z.to_nat (Z.of_nat n)) h)
                 = true) by (rewrite Nat2Z.id; exact Fit).
  destruct (read_batch_open st h (Z.of_nat n) hh ww Hs Ho Hn Hh Hw Ok Fit')
    as [st1 [E C]].
  rewrite Nat2Z.id in E, C.
  assert (Eb : exists b, read_batch st = (Return (Some b), st1) /\
                         frames_of b = next_frames n h).
  { destruct (_dynamic_batch (self st)).
    - destruct n as [|n']; [lia|]. eexists. split; [exact E|].
      rewrite <- (app_nil_r (map Wrote _)).
      apply (frames_of_written hh ww _ 0).
    - eexists. split; [exact E|]. apply frames_of_written. }
  destruct Eb as [b [Eb Fb]]. exists b, st1.
  split; [rewrite (next_in_batch_mode st _ Hn), Eb; reflexivity|].
  split; [exact Fb|]. split; [exact C|].
  split; [pose proof (kc_read_batch st) as K; rewrite Eb in K; exact K|].
  destruct (read_batch_leaves st b st1 Eb)
    as [h1 [n1 [Hs1 [Hn1 [_ [_ [S1 O1]]]]]]].
  rewrite Hs in Hs1. injection Hs1 as <-.
  rewrite Hn in Hn1. injection Hn1 as Hn1. apply Nat2Z.inj in Hn1.
  subst n1. rewrite Fb in S1.
  destruct (Nat.ltb_spec k n) as [Lt|Ge].
  - assert (Len : List.length (next_frames n h) = k).
    { replace n with (k + (n - k))%nat by lia.
      rewrite (delivers_stop k _ h D). apply delivers_length, D. }
    rewrite Len in S1. destruct (Nat.ltb_spec k n) as [_|Ge]; [|lia].
    split; [exact S1|]. rewrite O1.
    apply (delivers_last_flag_short k n h true D Lt).
  - assert (D' : delivers (n + (k - n)) h)
      by (replace (n + (k - n))%nat with k by lia; exact D).
    rewrite (delivers_prefix_length n _ h D'), Nat.ltb_irrefl in S1.
    split; [exact S1|]. rewrite O1. destruct n as [|n']; [lia|].
    apply (delivers_last_flag_full n' (k - S n') h true D').
Qed.

Lemma config_sizes (o1 o2 : VideoReader H) :
  config_of o1 = config_of o2 ->
  _batch_size o1 = _batch_size o2 /\ _height o1 = _height o2 /\
  _width o1 = _width o2.
Proof. unfold config_of. intros K. injection K. auto. Qed.

(** Iterating in batches over a handle that delivers [q * n + r] more
    frames, [r < n], where [n] is the batch size and numpy can make a batch
    of [n] slots of the height and width of the adapter: the loop ends with
    StopIteration after [q + 1] batches, which hold the frames in order,
    none lost and none repeated; the counter has grown by their number.
    The last batch holds the remaining [r] frames: when the frames fill the
    batches exactly ([r = 0]) there is still a last batch, with no frame in
    it. *)
Theorem batch_iteration (q : nat) :
  forall (r n : nat) (st : State H) (h : H) (hh ww : Z),
  (r < n)%nat ->
  _video_stream (self st) = Some h ->
  _is_open (self st) = true ->
  _batch_size (self st) = Some (Z.of_nat n) ->
  _height (self st) = Some hh ->
  _width (self st) = Some ww ->
  np_zeros_ok (Z.of_nat n) hh ww = true ->
  delivers (q * n + r) h ->
  forallb (fits hh ww) (next_frames (q * n + r) h) = true ->
  exists vs st',
    collect (S (S q)) st = (Return (vs, true), st') /\
    List.concat (map value_frames vs) = next_frames (q * n + r) h /\
    List.length vs = S q /\
    value_frames (last vs (VBatch (mkBatch hh ww [])))
      = next_frames r (after_reads (q * n) h) /\
    _frame_count (self st') = _frame_count (self st) + Z.of_nat (q * n + r).
Proof.
  induction q as [|q IH]; intros r n st h hh ww Lr Hs Hf Hn Hh Hw Ok D Fit.
  - cbn [Nat.mul Nat.add] in *.
    assert (Stop : next_frames n h = next_frames r h).
    { replace n with (r + (n - r))%nat by lia. apply delivers_stop, D. }
    assert (Fit' : forallb (fits hh ww) (next_frames n h) = true)
      by (rewrite Stop; exact Fit).
    destruct (batch_step st h n r hh ww Hs Hf Hn ltac:(lia) Hh Hw Ok D
                Fit') as [b [st1 [N [Fb [C [K [S1 O1]]]]]]].
    destruct (config_sizes _ _ K) as [Kn _].
    assert (Cl : closed_on st1 (after_reads (if (r <? n)%nat then S r else n)
                                  h)).
    { split; [exact S1|]. rewrite O1.
      destruct (Nat.ltb_spec r n) as [_|Ge]; [|lia]. apply andb_false_r. }
    exists [VBatch b], (mkState (self st1) (calls st1 ++ [CIsOpened])).
    split; [|split; [|split; [|split]]].
    + cbn [collect]. rewrite N.
      rewrite (next_in_batch_mode st1 (Z.of_nat n))
        by (rewrite Kn; exact Hn).
      rewrite (read_batch_closed st1 _ Cl). reflexivity.
    + cbn. rewrite app_nil_r, Fb. exact Stop.
    + reflexivity.
    + cbn. rewrite Fb. exact Stop.
    + cbn [self]. rewrite C, Stop, (delivers_length r h D). reflexivity.
  - assert (Dk : delivers (n + (q * n + r)) h)
      by (replace (n + (q * n + r))%nat with (S q * n + r)%nat
            by (cbn [Nat.mul]; lia); exact D).
    assert (Len : List.length (next_frames n h) = n)
      by apply (delivers_prefix_length n _ h Dk).
    assert (Split : next_frames (S q * n + r) h =
                    (next_frames n h ++
                     next_frames (q * n + r) (after_reads n h))%list).
    { cbn [Nat.mul]. rewrite <- Nat.add_assoc.
      apply next_frames_add, Len. }
    rewrite Split, forallb_app in Fit. apply andb_true_iff in Fit.
    destruct Fit as [Fit1 Fit2].
    destruct (batch_step st h n (S q * n + r) hh ww Hs Hf Hn ltac:(lia)
                Hh Hw Ok D Fit1) as [b [st1 [N [Fb [C [K [S1 O1]]]]]]].
    destruct (Nat.ltb_spec (S q * n + r) n) as [Lt|_]; [cbn in Lt; lia|].
    destruct (config_sizes _ _ K) as [Kn [Kh Kw]].
    destruct (IH r n st1 (after_reads n h) hh ww Lr S1 O1
                ltac:(rewrite Kn; exact Hn) ltac:(rewrite Kh; exact Hh)
                ltac:(rewrite Kw; exact Hw) Ok
                (delivers_after n _ h Dk) Fit2)
      as [vs [st' [E [Fr [Lv [La F]]]]]].
    exists (VBatch b :: vs), st'.
    split; [|split; [|split; [|split]]].
    + change (collect (S (S (S q))) st) with
        (match __next__ st with
         | (Return v, st1) =>
             match collect (S (S q)) st1 with
             | (Return (vs, done), st2) => (Return (v :: vs, done), st2)
             | (Raise e, st2) => (Raise e, st2)
             end
         | (Raise StopIteration, st1) => (Return ([], true), st1)
         | (Raise e, st1) => (Raise e, st1)
         end).
      rewrite N, E. reflexivity.
    + cbn [map List.concat value_frames]. rewrite Fb, Fr. symmetry. exact Split.
    + cbn [List.length]. rewrite Lv. reflexivity.
    + destruct vs as [|v vs']; [discriminate Lv|].
      change (last (VBatch b :: v :: vs') (VBatch (mkBatch hh ww [])))
        with (last (v :: vs') (VBatch (mkBatch hh ww []))).
      rewrite La. cbn [Nat.mul]. rewrite after_reads_add. reflexivity.
    + rewrite F, C, Len. cbn [Nat.mul]. lia.
Qed.

End Iteration.

(** ** Further concrete runs on the scripted backend *)

(** A script with no [(True, None)] entry never sets the flag without
    delivering a frame. *)
Lemma scripted_flag_follows_frame (world : Source -> Script) (h : Script) :
  forallb (fun r => match r with
                    | (true, None) => false
                    | _ => true
                    end) (sc_reads h) = true ->
  forall k,
    snd (fst (@cap_read Script (Scripted world)
                (@after_reads Script (Scripted world) k h))) = None ->
    fst (fst (@cap_read Script (Scripted world)
                (@after_reads Script (Scripted world) k h))) = false.
Proof.
  intros G k. revert h G. induction k as [|k IH]; intros h G.
  - cbn. unfold script_read. destruct (sc_opened h); [|reflexivity].
    destruct (sc_reads h) as [|[[] [f|]] rest]; cbn in *;
      try reflexivity; discriminate.
  - cbn [after_reads]. apply IH. cbn [cap_read Scripted].
    unfold script_read.
    destruct (sc_opened h); cbn [snd]; [|exact G].
    destruct (sc_reads h) as [|r rest] eqn:E; cbn [snd sc_reads].
    + rewrite E. reflexivity.
    + cbn [forallb] in G. apply andb_true_iff in G. exact (proj2 G).
Qed.

(** [construction_calls] on a concrete run. *)
Lemma construction_calls_witness :
  let B := Scripted (always one_frame_file) in
  let st := snd (@construct Script B (PStr "clip.mp4") None false
                   (Some 640) None) in
  @construct Script B (PStr "clip.mp4") None false (Some 640) None
    = (Return tt, st) /\
  exists p,
    PStr "clip.mp4" = PStr p /\
    calls st =
    [COpen (Filename p); CIsOpened;
     size_call CAP_PROP_FRAME_WIDTH (Some 640);
     size_call CAP_PROP_FRAME_HEIGHT None;
     CGet CAP_PROP_FPS; CIsOpened].
Proof.
  intros B st.
  assert (C : @construct Script B (PStr "clip.mp4") None false (Some 640)
                None = (Return tt, st)) by by_run.
  split; [exact C|].
  exact (@construction_calls Script B _ _ _ _ _ st C).
Defined.

(** [construction_snapshot] on a concrete run. *)
Lemma construction_snapshot_witness :
  let B := Scripted (always one_frame_file) in
  let st := snd (@construct Script B (PStr "clip.mp4") (Some 4) true
                   None None) in
  @construct Script B (PStr "clip.mp4") (Some 4) true None None
    = (Return tt, st) /\
  fst (@fps Script st) = Return (Finite (25 # 1)) /\
  _batch_size (self st) = Some 4.
Proof.
  intros B st.
  assert (C : @construct Script B (PStr "clip.mp4") (Some 4) true None None
              = (Return tt, st)) by by_run.
  split; [exact C|].
  destruct (@construction_snapshot Script B _ _ _ _ _ st C)
    as [p [P [_ [_ [Bs [_ [_ [F _]]]]]]]].
  injection P as <-. split; [rewrite F; by_run | exact Bs].
Defined.

(** [read_batch_effect] on a concrete run. *)
Lemma read_batch_effect_witness :
  let B := Scripted (always one_frame_file) in
  let st := sample_reader one_frame_file (Some 3) false in
  let b := mkBatch 2 2 [Wrote (sample_frame 1); Zeros; Zeros] in
  let st' := snd (@read_batch Script B machine st) in
  @read_batch Script B machine st = (Return (Some b), st') /\
  calls st' = (calls st ++ [CIsOpened; CRead; CRead])%list.
Proof.
  intros B st b st'.
  assert (E : @read_batch Script B machine st = (Return (Some b), st'))
    by by_run.
  assert (Hs : _video_stream (self st) = Some one_frame_file) by by_run.
  assert (Hn : _batch_size (self st) = Some (Z.of_nat 3)) by by_run.
  split; [exact E|].
  destruct (@read_batch_effect Script B machine st one_frame_file 3%nat b st'
              Hs Hn E) as [_ [_ [C _]]].
  rewrite C. reflexivity.
Defined.

(** [consecutive_batches] on a concrete run. *)
Lemma consecutive_batches_witness :
  let file := sample_file [(true, Some (sample_frame 1));
                           (true, Some (sample_frame 2));
                           (true, Some (sample_frame 3))] in
  let B := Scripted (always file) in
  let st := sample_reader file (Some 2) true in
  let r1 := @read_batch Script B machine st in
  let r2 := @read_batch Script B machine (snd r1) in
  fst r1 = Return (Some (mkBatch 2 2 [Wrote (sample_frame 1);
                                      Wrote (sample_frame 2)])) /\
  fst r2 = Return (Some (mkBatch 2 2 [Wrote (sample_frame 3)])) /\
  exists h,
    _video_stream (self st) = Some h /\
    [sample_frame 1; sample_frame 2; sample_frame 3]
      = @next_frames Script B (2 + 2) h.
Proof.
  intros file B st r1 r2.
  set (b1 := mkBatch 2 2 [Wrote (sample_frame 1); Wrote (sample_frame 2)]).
  set (b2 := mkBatch 2 2 [Wrote (sample_frame 3)]).
  assert (E1 : @read_batch Script B machine st = (Return (Some b1), snd r1))
    by by_run.
  assert (E2 : @read_batch Script B machine (snd r1)
               = (Return (Some b2), snd r2))
    by by_run.
  assert (Hn : _batch_size (self st) = Some (Z.of_nat 2)) by by_run.
  assert (Full : List.length (frames_of b1) = 2%nat) by by_run.
  split; [by_run|]. split; [by_run|].
  exact (@consecutive_batches Script B machine st (snd r1) (snd r2) b1 b2 2%nat
           E1 E2 Hn Full).
Defined.

(** [short_batch_is_last] on a concrete run. *)
Lemma short_batch_is_last_witness :
  let B := Scripted (always one_frame_file) in
  let st := sample_reader one_frame_file (Some 3) false in
  let b := mkBatch 2 2 [Wrote (sample_frame 1); Zeros; Zeros] in
  let st1 := snd (@read_batch Script B machine st) in
  @read_batch Script B machine st = (Return (Some b), st1) /\
  (List.length (frames_of b) < 3)%nat /\
  fst (@is_open Script B st1) = Return false /\
  fst (@read_batch Script B machine st1) = Return None.
Proof.
  intros B st b st1.
  assert (E : @read_batch Script B machine st = (Return (Some b), st1))
    by by_run.
  assert (Hs : _video_stream (self st) = Some one_frame_file) by by_run.
  assert (Hn : _batch_size (self st) = Some (Z.of_nat 3)) by by_run.
  assert (Short : (List.length (frames_of b) < 3)%nat) by (cbn; lia).
  destruct (@short_batch_is_last Script B machine st st1 one_frame_file b
              3%nat Hs
              (scripted_flag_follows_frame (always one_frame_file)
                 one_frame_file eq_refl) E Hn Short)
    as [O R].
  split; [exact E|]. split; [exact Short|]. split; [exact O|].
  rewrite R. reflexivity.
Defined.

(** [frame_mode_iteration] on a concrete run. *)
Lemma frame_mode_iteration_witness :
  let file := sample_file [(true, Some (sample_frame 1));
                           (true, Some (sample_frame 2))] in
  let B := Scripted (always file) in
  let st := sample_reader file None false in
  exists st',
    @do_reads Script B machine [CallNext; CallNext] st
      = (Return [Some (VFrame (sample_frame 1));
                 Some (VFrame (sample_frame 2))], st') /\
    _frame_count (self st') = 2 /\
    fst (@__next__ Script B machine st') = Raise StopIteration.
Proof.
  intros file B st.
  assert (Hn : _batch_size (self st) = None) by by_run.
  assert (Hs : _video_stream (self st) = Some file) by by_run.
  assert (L : List.length (@next_frames Script B 2 file) = 2%nat) by by_run.
  destruct (@frame_mode_iteration Script B machine 2 st file Hn Hs L)
    as [st' [E [F [_ [_ Stop]]]]].
  cbn [repeat] in E.
  exists st'. split; [rewrite E; by_run|].
  split; [rewrite F; by_run|]. apply Stop. by_run.
Defined.

(** [read_batch_without_slots] on a concrete run. *)
Lemma read_batch_without_slots_witness :
  let B := Scripted (always one_frame_file) in
  let st := sample_reader one_frame_file None false in
  let st0 := sample_reader one_frame_file (Some 0) false in
  fst (@read_batch Script B machine st) = Raise TypeError /\
  fst (@read_batch Script B machine st0) = Return (Some (mkBatch 2 2 [])) /\
  calls (snd (@read_batch Script B machine st0))
    = (calls st0 ++ [CIsOpened])%list.
Proof.
  intros B st st0.
  assert (Hs : _video_stream (self st) = Some one_frame_file) by by_run.
  assert (Ho : fst (@is_open Script B st) = Return true) by by_run.
  assert (Hh : _height (self st) = Some 2) by by_run.
  assert (Hw : _width (self st) = Some 2) by by_run.
  assert (Hn : _batch_size (self st) = None) by by_run.
  assert (Hs0 : _video_stream (self st0) = Some one_frame_file) by by_run.
  assert (Ho0 : fst (@is_open Script B st0) = Return true) by by_run.
  assert (Hh0 : _height (self st0) = Some 2) by by_run.
  assert (Hw0 : _width (self st0) = Some 2) by by_run.
  assert (Hn0 : _batch_size (self st0) = Some 0) by by_run.
  assert (Hd0 : _dynamic_batch (self st0) = false) by by_run.
  assert (Ok : @np_zeros_ok machine 0 2 2 = true) by by_run.
  destruct (@read_batch_without_slots Script B machine st one_frame_file 2 2
              Hs Ho Hh Hw) as [T _].
  destruct (@read_batch_without_slots Script B machine st0 one_frame_file 2 2
              Hs0 Ho0 Hh0 Hw0) as [_ [_ [_ Z0]]].
  destruct (Z0 Hn0 Ok Hd0) as [E0 _].
  rewrite (T Hn), E0. repeat split.
Defined.

(** [unfit_frame_is_lost] on a concrete run. *)
Lemma unfit_frame_is_lost_witness :
  let B := Scripted (always one_frame_file) in
  let st := snd (@construct Script B (PStr "clip.mp4") (Some 2) false
                   (Some 5) (Some 5)) in
  fits 5 5 (sample_frame 1) = false /\
  exists st',
    @read_batch Script B machine st = (Raise ValueError, st') /\
    _frame_count (self st') = 1.
Proof.
  intros B st.
  assert (Hs : _video_stream (self st) = Some one_frame_file) by by_run.
  assert (Ho : fst (@is_open Script B st) = Return true) by by_run.
  assert (Hn : _batch_size (self st) = Some 2) by by_run.
  assert (Hh : _height (self st) = Some 5) by by_run.
  assert (Hw : _width (self st) = Some 5) by by_run.
  assert (R : snd (fst (@cap_read Script B one_frame_file))
              = Some (sample_frame 1)) by by_run.
  assert (U : fits 5 5 (sample_frame 1) = false) by by_run.
  assert (Ok : @np_zeros_ok machine 2 5 5 = true) by by_run.
  destruct (@unfit_frame_is_lost Script B machine st one_frame_file 2 5 5
              (sample_frame 1) Hs Ho Hn ltac:(lia) Hh Hw Ok R U)
    as [st' [E [F _]]].
  split; [exact U|]. exists st'. split; [exact E|]. rewrite F. by_run.
Defined.

(** [without_a_handle] on a concrete run. *)
Lemma without_a_handle_witness :
  let B := Scripted (always one_frame_file) in
  let st := snd (@construct Script B (PStr "notes.txt") None false
                   None None) in
  _video_stream (self st) = None /\
  @release Script B st = (Return tt, st) /\
  @read_frame Script B st = (Raise AttributeError, st).
Proof.
  intros B st.
  assert (Hs : _video_stream (self st) = None) by by_run.
  destruct (@without_a_handle Script B machine st Hs) as [R [_ [_ [_ [F _]]]]].
  split; [exact Hs|]. split; [exact R | exact F].
Defined.

(** [del_clears_unless_release_raises] on a concrete run. *)
Lemma del_clears_unless_release_raises_witness :
  let st := sample_reader one_frame_file None false in
  let st' := sample_reader stuck_handle None false in
  _video_stream
    (self (snd (@__del__ Script (Scripted (always one_frame_file)) st)))
    = None /\
  fst (@__del__ Script (Scripted (always stuck_handle)) st')
    = Raise (BackendError 1) /\
  _video_stream
    (self (snd (@__del__ Script (Scripted (always stuck_handle)) st')))
    = Some stuck_handle.
Proof.
  intros st st'.
  assert (Hs : _video_stream (self st) = Some one_frame_file) by by_run.
  assert (Hs' : _video_stream (self st') = Some stuck_handle) by by_run.
  pose proof (@del_clears_unless_release_raises Script
                (Scripted (always one_frame_file)) st one_frame_file Hs)
    as [D _].
  pose proof (@del_clears_unless_release_raises Script
                (Scripted (always stuck_handle)) st' stuck_handle Hs')
    as [D' _].
  cbn in D, D'. destruct D as [_ D]. destruct D' as [E' D'].
  split; [exact D|]. split; [exact E' | exact D'].
Defined.

(** [released_adapter_is_closed] on a concrete run. *)
Lemma released_adapter_is_closed_witness :
  let B := Scripted (always one_frame_file) in
  let st := sample_reader one_frame_file (Some 2) false in
  fst (@release Script B st) = Return tt /\
  fst (@is_open Script B (snd (@release Script B st))) = Return false /\
  fst (@read_batch Script B machine (snd (@release Script B st))) = Return None.
Proof.
  intros B st.
  assert (Hs : _video_stream (self st) = Some one_frame_file) by by_run.
  assert (Ok : fst (@cap_release Script B one_frame_file) = None) by by_run.
  assert (Cl : @isOpened Script B (snd (@cap_release Script B one_frame_file))
               = false) by by_run.
  destruct (@released_adapter_is_closed Script B machine st one_frame_file
              Hs Ok Cl)
    as [R [O [Rb _]]].
  split; [exact R|]. split; [exact O|]. rewrite Rb. reflexivity.
Defined.

(** [show_releases_on_q] on a concrete run. *)
Lemma show_releases_on_q_witness :
  let B := Scripted (always one_frame_file) in
  let st := sample_reader one_frame_file None false in
  @show Script B false (113 + 256) st = @release Script B st /\
  @show Script B false 114 st = (Return tt, st).
Proof.
  intros B st.
  assert (Ht : _video_title (self st) = Some "clip.mp4") by by_run.
  destruct (@show_releases_on_q Script B st "clip.mp4" (113 + 256) Ht)
    as [Q _].
  destruct (@show_releases_on_q Script B st "clip.mp4" 114 Ht) as [N _].
  split; [exact Q | exact N].
Defined.

(** [validation_ignores_directory] on a concrete run. *)
Lemma validation_ignores_directory_witness :
  PyStr.all_chars (PyStr.is_not "/") "take.mp4" = true /\
  extension_of "runs/2024.05.01/take.mp4" = extension_of "take.mp4".
Proof.
  assert (F : PyStr.all_chars (PyStr.is_not "/") "take.mp4" = true)
    by by_run.
  split; [exact F|].
  exact (proj1 (PathFacts.validation_ignores_directory "runs/2024.05.01"
                  "take.mp4" F)).
Defined.

(** [dotless_name_is_its_extension] on a concrete run. *)
Lemma dotless_name_is_its_extension_witness :
  PyStr.all_chars (PyStr.is_not ".") "MP4" = true /\
  PyStr.all_chars (PyStr.is_not "/") "MP4" = true /\
  extension_of "MP4" = "mp4" /\
  in_EXTENSIONS (extension_of "clips/MP4") = true.
Proof.
  assert (D : PyStr.all_chars (PyStr.is_not ".") "MP4" = true) by by_run.
  assert (S : PyStr.all_chars (PyStr.is_not "/") "MP4" = true) by by_run.
  destruct (PathFacts.dotless_name_is_its_extension "clips" "MP4" D S)
    as [E1 E2].
  split; [exact D|]. split; [exact S|].
  cbn [String.append] in E2.
  split; [rewrite E1; by_run | rewrite E2; by_run].
Defined.

(** [batch_iteration] on a concrete run. *)
Lemma batch_iteration_witness :
  let file := sample_file [(true, Some (sample_frame 1));
                           (true, Some (sample_frame 2));
                           (true, Some (sample_frame 3));
                           (true, Some (sample_frame 4));
                           (true, Some (sample_frame 5))] in
  let B := Scripted (always file) in
  let st := sample_reader file (Some 2) false in
  @delivers Script B (2 * 2 + 1) file /\
  fst (@collect Script B machine 4 st) =
    Return ([VBatch (mkBatch 2 2 [Wrote (sample_frame 1);
                                  Wrote (sample_frame 2)]);
             VBatch (mkBatch 2 2 [Wrote (sample_frame 3);
                                  Wrote (sample_frame 4)]);
             VBatch (mkBatch 2 2 [Wrote (sample_frame 5); Zeros])], true) /\
  _frame_count (self (snd (@collect Script B machine 4 st))) = 5.
Proof.
  intros file B st.
  assert (D : @delivers Script B (2 * 2 + 1) file).
  { repeat (split; [reflexivity|]; eexists; split; [reflexivity|]).
    split; reflexivity. }
  assert (Hs : _video_stream (self st) = Some file) by by_run.
  assert (Hf : _is_open (self st) = true) by by_run.
  assert (Hn : _batch_size (self st) = Some (Z.of_nat 2)) by by_run.
  assert (Hh : _height (self st) = Some 2) by by_run.
  assert (Hw : _width (self st) = Some 2) by by_run.
  assert (Fit : forallb (fits 2 2) (@next_frames Script B (2 * 2 + 1) file)
                = true) by by_run.
  assert (Ok : @np_zeros_ok machine (Z.of_nat 2) 2 2 = true) by by_run.
  destruct (@batch_iteration Script B machine 2 1%nat 2%nat st file 2 2
              ltac:(lia) Hs Hf Hn Hh Hw Ok D Fit)
    as [vs [st' [E [_ [_ [_ F]]]]]].
  split; [exact D|]. split; [by_run|].
  rewrite E. cbn [snd]. rewrite F. by_run.
Defined.
